(** * genmsg.gentools: fingerprints, canonical text and dependency bundles

    A shallow embedding of [src/genmsg/gentools.py] and the properties of
    its functions.

    Conventions of the embedding.
    - A Python [str] is a byte string (the module is Python 2 code: it
      tries [cStringIO] first and falls back on the [md5] module), modelled
      as [string]; [StringIO.write] appends.
    - A raised exception is a value of [exn]; a call either returns or
      raises ([result]).
    - The type registry of [genmsg.msgs] is process-wide state: every
      operation takes the registry and gives back the registry it leaves
      behind, also when it raises.
    - [hashlib.md5] is modelled by its contract: the object accumulates the
      bytes it is fed and [hexdigest] is the RFC 1321 digest of that
      sequence, written in lowercase hexadecimal. *)

From Stdlib Require Import ZArith List String Ascii Bool Lia.
Import ListNotations.
Local Open Scope string_scope.

Set Implicit Arguments.

(* ================================================================== *)
(** ** RFC 1321 (what [hashlib.md5] computes) *)
(* ================================================================== *)

Module MD5.
Local Open Scope list_scope.
Local Open Scope Z_scope.

Definition wrap32 (x : Z) : Z := Z.land x 0xffffffff.

Definition add32 (x y : Z) : Z := wrap32 (x + y).

Definition not32 (x : Z) : Z := Z.lxor x 0xffffffff.

Definition rotl32 (x n : Z) : Z :=
  wrap32 (Z.lor (Z.shiftl x n) (Z.shiftr x (32 - n))).

Definition K : list Z :=
  [ 0xd76aa478; 0xe8c7b756; 0x242070db; 0xc1bdceee;
    0xf57c0faf; 0x4787c62a; 0xa8304613; 0xfd469501;
    0x698098d8; 0x8b44f7af; 0xffff5bb1; 0x895cd7be;
    0x6b901122; 0xfd987193; 0xa679438e; 0x49b40821;
    0xf61e2562; 0xc040b340; 0x265e5a51; 0xe9b6c7aa;
    0xd62f105d; 0x02441453; 0xd8a1e681; 0xe7d3fbc8;
    0x21e1cde6; 0xc33707d6; 0xf4d50d87; 0x455a14ed;
    0xa9e3e905; 0xfcefa3f8; 0x676f02d9; 0x8d2a4c8a;
    0xfffa3942; 0x8771f681; 0x6d9d6122; 0xfde5380c;
    0xa4beea44; 0x4bdecfa9; 0xf6bb4b60; 0xbebfbc70;
    0x289b7ec6; 0xeaa127fa; 0xd4ef3085; 0x04881d05;
    0xd9d4d039; 0xe6db99e5; 0x1fa27cf8; 0xc4ac5665;
    0xf4292244; 0x432aff97; 0xab9423a7; 0xfc93a039;
    0x655b59c3; 0x8f0ccc92; 0xffeff47d; 0x85845dd1;
    0x6fa87e4f; 0xfe2ce6e0; 0xa3014314; 0x4e0811a1;
    0xf7537e82; 0xbd3af235; 0x2ad7d2bb; 0xeb86d391 ].

Definition shifts : list Z :=
  [ 7; 12; 17; 22; 7; 12; 17; 22; 7; 12; 17; 22; 7; 12; 17; 22;
    5;  9; 14; 20; 5;  9; 14; 20; 5;  9; 14; 20; 5;  9; 14; 20;
    4; 11; 16; 23; 4; 11; 16; 23; 4; 11; 16; 23; 4; 11; 16; 23;
    6; 10; 15; 21; 6; 10; 15; 21; 6; 10; 15; 21; 6; 10; 15; 21 ].

(** The four chaining words. *)
Record state : Type := mkState { sA : Z; sB : Z; sC : Z; sD : Z }.

Definition init_state : state :=
  mkState 0x67452301 0xefcdab89 0x98badcfe 0x10325476.

(** Round [i] (0..63) on the sixteen words [M] of one block. *)
Definition round (M : list Z) (st : state) (i : nat) : state :=
  let '(mkState a b c d) := st in
  let iz := Z.of_nat i in
  let '(f, g) :=
    if iz <? 16 then (Z.lor (Z.land b c) (Z.land (not32 b) d), iz)
    else if iz <? 32 then
      (Z.lor (Z.land d b) (Z.land (not32 d) c), (5 * iz + 1) mod 16)
    else if iz <? 48 then (Z.lxor b (Z.lxor c d), (3 * iz + 5) mod 16)
    else (Z.lxor c (Z.lor b (not32 d)), (7 * iz) mod 16) in
  let f' := add32 (add32 (add32 f a) (nth i K 0)) (nth (Z.to_nat g) M 0) in
  mkState d (add32 b (rotl32 f' (nth i shifts 0))) b c.

Definition process_block (st : state) (M : list Z) : state :=
  let st' := fold_left (round M) (seq 0 64) st in
  mkState (add32 (sA st) (sA st')) (add32 (sB st) (sB st'))
          (add32 (sC st) (sC st')) (add32 (sD st) (sD st')).

(** Little-endian bytes of a number, [n] of them. *)
Fixpoint le_bytes (n : nat) (x : Z) : list Z :=
  match n with
  | O => []
  | S n' => Z.land x 0xff :: le_bytes n' (Z.shiftr x 8)
  end.

Fixpoint le_word (bs : list Z) : Z :=
  match bs with
  | [] => 0
  | b :: bs' => b + 256 * le_word bs'
  end.

(** The message, a 1 bit, zeros up to 56 modulo 64, the bit length. *)
Definition pad (msg : list Z) : list Z :=
  let len := Z.of_nat (List.length msg) in
  let zeros := Z.to_nat ((55 - len) mod 64) in
  msg ++ 0x80 :: repeat 0 zeros ++ le_bytes 8 (8 * len).

(** Cut a byte sequence into groups of [k]; [fuel] bounds the groups. *)
Fixpoint chunks (fuel k : nat) (bs : list Z) : list (list Z) :=
  match fuel, bs with
  | O, _ | _, [] => []
  | S fuel', _ => firstn k bs :: chunks fuel' k (skipn k bs)
  end.

Definition words_of_block (blk : list Z) : list Z :=
  map le_word (chunks 16 4 blk).

Definition digest_bytes (msg : list Z) : list Z :=
  let p := pad msg in
  let blocks := chunks (List.length p) 64 p in
  let st := fold_left process_block (map words_of_block blocks) init_state in
  le_bytes 4 (sA st) ++ le_bytes 4 (sB st) ++
  le_bytes 4 (sC st) ++ le_bytes 4 (sD st).

Definition hex_digit (x : Z) : ascii :=
  nth (Z.to_nat x)
      (list_ascii_of_string "0123456789abcdef"%string) "0"%char.

Fixpoint hex_of_bytes (bs : list Z) : string :=
  match bs with
  | [] => EmptyString
  | b :: bs' =>
      String (hex_digit (Z.shiftr b 4))
             (String (hex_digit (Z.land b 0xf)) (hex_of_bytes bs'))
  end.

Definition bytes_of_string (s : string) : list Z :=
  map (fun c => Z.of_N (N_of_ascii c)) (list_ascii_of_string s).

(** [hashlib.md5(s).hexdigest()] *)
Definition hexdigest (s : string) : string :=
  hex_of_bytes (digest_bytes (bytes_of_string s)).

End MD5.

(* ================================================================== *)
(** ** Python values, exceptions and the shared registry *)
(* ================================================================== *)

(** The exceptions this module can raise or let through. *)
Inductive exn : Type :=
| TypeError (msg : string)
| NameError (name : string)
| KeyError (key : string)
| AttributeError (attribute : string)
| MsgSpecException (msg : string)
| Exception (msg : string)
| RecursionDepthExceeded.

Inductive result (A : Type) : Type :=
| Ok (a : A)
| Raise (e : exn).
Arguments Ok {A} a.
Arguments Raise {A} e.

(** [msgs.Constant]: the fields the module reads. *)
Record Constant : Type := mkConstant {
  type : string;
  name : string;
  val_text : string
}.

(** [msgs.MsgSpec]: the fields the module reads. *)
Record MsgSpec : Type := mkMsgSpec {
  types : list string;
  names : list string;
  constants : list Constant;
  text : string
}.

(** [srvs.SrvSpec]; [srv_text] is its [text] attribute. *)
Record SrvSpec : Type := mkSrvSpec {
  request : MsgSpec;
  response : MsgSpec;
  srv_text : string
}.

(** What an attribute lookup on an arbitrary object can give. *)
Inductive attribute_value : Type :=
| NoAttribute
| NotAString
| Str (s : string).

(** An object that is neither a [MsgSpec] nor a [SrvSpec]: what
    [str(obj)] gives (the call can raise), whether the object is a tuple
    and then what [str] gives on each of its elements, and its [text]
    attribute. *)
Record PyObject : Type := mkPyObject {
  obj_str : result string;
  obj_tuple : option (list (result string));
  obj_text : attribute_value
}.

(** The values [isinstance] tells apart. *)
Inductive spec_value : Type :=
| Msg (m : MsgSpec)
| Srv (s : SrvSpec)
| Other (o : PyObject).

(** The dictionary [get_dependencies] returns. ['files' in d] is
    [files d <> None]; the [files] dictionary itself is its lookup. *)
Record bundle : Type := mkBundle {
  files : option (string -> option string);
  deps : list string;
  spec : spec_value;
  package : string;
  uniquedeps : list string
}.

(** The collaborators in [genmsg.msgs] and [genmsg.names], whose code is
    outside this module: the operations on the registry and on type
    names. [get_registered] gives [None] where the Python raises
    [KeyError]. *)
Class Msgs : Type := {
  registry : Type;
  search_path : Type;
  msgs_init : registry -> registry;
  base_msg_type : string -> string;
  is_builtin : string -> bool;
  is_registered : registry -> string -> bool;
  get_registered : registry -> string -> option string -> option spec_value;
  load_by_type :
    registry -> string -> search_path -> string -> result (string * spec_value);
  register : registry -> string -> spec_value -> registry;
  package_resource_name : string -> string * string;
  msg_file : string -> string -> string
}.

(* ================================================================== *)
(** ** String operations of Python *)
(* ================================================================== *)

(** [c.isspace()] on a byte string: tab, LF, VT, FF, CR and space. *)
Definition py_isspace (c : ascii) : bool :=
  let n := nat_of_ascii c in
  (Nat.leb 9 n && Nat.leb n 13) || Nat.eqb n 32.

Fixpoint lstrip (s : string) : string :=
  match s with
  | EmptyString => EmptyString
  | String c s' => if py_isspace c then lstrip s' else s
  end.

Fixpoint rstrip (s : string) : string :=
  match s with
  | EmptyString => EmptyString
  | String c s' =>
      match rstrip s' with
      | EmptyString => if py_isspace c then EmptyString else String c EmptyString
      | r => String c r
      end
  end.

(** [s.strip()] *)
Definition strip (s : string) : string := rstrip (lstrip s).

(** [s[:-1]] *)
Fixpoint drop_last (s : string) : string :=
  match s with
  | EmptyString => EmptyString
  | String c EmptyString => EmptyString
  | String c s' => String c (drop_last s')
  end.

(** ['/' in t] *)
Fixpoint contains_slash (t : string) : bool :=
  match t with
  | EmptyString => false
  | String c t' => Ascii.eqb c "/"%char || contains_slash t'
  end.

(** [c * n] for a one-character string. *)
Fixpoint replicate (n : nat) (c : ascii) : string :=
  match n with
  | O => EmptyString
  | S n' => String c (replicate n' c)
  end.

Definition newline : string := String (ascii_of_nat 10) EmptyString.

(** [d in l] *)
Definition mem (d : string) (l : list string) : bool :=
  existsb (String.eqb d) l.

(** [l.append(x)] *)
Definition append {A : Type} (l : list A) (x : A) : list A := (l ++ [x])%list.

(** [zip(a, b)]: as long as the shorter of the two. *)
Fixpoint zip {A B : Type} (a : list A) (b : list B) : list (A * B) :=
  match a, b with
  | x :: a', y :: b' => (x, y) :: zip a' b'
  | _, _ => []
  end.

(* ================================================================== *)
(** ** Calls that read and update the registry, and may raise *)
(* ================================================================== *)

Section Monad.
Variable R : Type.

Definition M (A : Type) : Type := R -> R * result A.

Definition ret {A : Type} (a : A) : M A := fun r => (r, Ok a).

Definition raise {A : Type} (e : exn) : M A := fun r => (r, Raise e).

Definition bind {A B : Type} (m : M A) (k : A -> M B) : M B :=
  fun r =>
    match m r with
    | (r', Ok a) => k a r'
    | (r', Raise e) => (r', Raise e)
    end.

Definition lift {A : Type} (x : result A) : M A := fun r => (r, x).

(** Read the registry. *)
Definition reads {A : Type} (f : R -> A) : M A := fun r => (r, Ok (f r)).

(** Update the registry. *)
Definition modify (f : R -> R) : M unit := fun r => (f r, Ok tt).

(** [try: m  except KeyError as e: h e]; other exceptions pass. *)
Definition except_KeyError {A : Type} (m : M A) (h : string -> M A) : M A :=
  fun r =>
    match m r with
    | (r', Raise (KeyError k)) => h k r'
    | other => other
    end.

End Monad.

Arguments ret {R A} a.
Arguments raise {R A} e.
Arguments lift {R A} x.
Arguments modify {R} f.

Notation "x <- m ;; k" := (bind m (fun x => k))
  (at level 61, m at next level, right associativity).
Notation "' pat <- m ;; k" := (bind m (fun x => match x with pat => k end))
  (at level 61, pat pattern, m at next level, right associativity).

(** The names bound in the module's global namespace: its imports, its
    one constant and its functions. *)
Definition module_globals : list string :=
  [ "sys"; "StringIO"; "msgs"; "MsgSpecException"; "MsgSpec"; "SrvSpec";
    "names"; "_header_type_name"; "_add_msgs_depends"; "compute_md5_text";
    "_compute_hash"; "_compute_hash_v1"; "compute_md5_v1"; "compute_md5";
    "compute_md5_v2"; "compute_full_text"; "get_dependencies" ].

(** Evaluating a global name that is not a Python builtin. *)
Definition global_name (n : string) : result unit :=
  if mem n module_globals then Ok tt else Raise (NameError n).

(** The [hashlib.md5()] object: the bytes fed so far. *)
Definition hash_object : Type := string.

Definition md5_new : hash_object := EmptyString.

(** [hash.update(s)] *)
Definition update (h : hash_object) (s : string) : hash_object := h ++ s.

Definition hexdigest (h : hash_object) : string := MD5.hexdigest h.

(** [a or b] on strings: the empty string is false. *)
Definition or_else (a b : string) : string :=
  if String.eqb a EmptyString then b else a.

(** [spec.types] *)
Definition spec_types (s : spec_value) : result (list string) :=
  match s with
  | Msg m => Ok (types m)
  | _ => Raise (AttributeError "types")
  end.

(** The attribute [spec.text]. *)
Definition text_attribute (s : spec_value) : attribute_value :=
  match s with
  | Msg m => Str (text m)
  | Srv s => Str (srv_text s)
  | Other o => obj_text o
  end.

(** [spec.text] as the argument of [hash.update] or [buff.write]: the
    lookup raises when there is no such attribute, and both callees
    refuse what is not a string. *)
Definition spec_text (s : spec_value) : result string :=
  match text_attribute s with
  | Str t => Ok t
  | NoAttribute => Raise (AttributeError "text")
  | NotAString => Raise (TypeError "must be string or buffer")
  end.

(* ================================================================== *)
(** ** The functions of [gentools.py] *)
(* ================================================================== *)

(** What Python raises for a call of the four-parameter
    [_add_msgs_depends] with three arguments. *)
Definition three_arguments : exn :=
  TypeError "_add_msgs_depends() takes exactly 4 arguments (3 given)".

(** What [get_dependencies] raises for a value of neither class. *)
Definition not_a_spec : exn :=
  MsgSpecException "spec does not appear to be a message or service".

(** ["[%s] is not a message or service" % spec]. A tuple on the right
    of [%] is the list of the arguments, of which the format takes one:
    the empty tuple has too few, a tuple of two or more has some left
    over once the first is converted. Any other value is the one
    argument. The argument is converted with [str]. *)
Definition format_not_a_message (o : PyObject) : result string :=
  let message (s : result string) :=
    match s with
    | Ok s => Ok ("[" ++ s ++ "] is not a message or service")
    | Raise e => Raise e
    end in
  match obj_tuple o with
  | None => message (obj_str o)
  | Some [] => Raise (TypeError "not enough arguments for format string")
  | Some [x] => message x
  | Some (x :: _ :: _) =>
      match x with
      | Ok _ =>
          Raise (TypeError
                   "not all arguments converted during string formatting")
      | Raise e => Raise e
      end
  end.

(** What [_compute_hash] raises for a value of neither class: the
    [Exception] with the formatted message, or what formatting the
    message raises. *)
Definition not_a_message_or_service (o : PyObject) : exn :=
  match format_not_a_message o with
  | Ok msg => Exception msg
  | Raise e => e
  end.

Section Gentools.
Context `{Msgs}.

(** [msgs.get_registered(t)] and [msgs.get_registered(t, package)] *)
Definition registered (t : string) (default_package : option string)
  : M registry spec_value :=
  fun reg =>
    match get_registered reg t default_package with
    | Some s => (reg, Ok s)
    | None => (reg, Raise (KeyError t))
    end.

(** [_add_msgs_depends(spec, deps, package_context, includepath)].
    [includepath] is [None] for a call that passes three arguments: the
    parameter has no default, and Python binds the arguments before it
    runs the body. The list [deps] is updated in place; the function
    gives back its new contents. [fuel] is the recursion depth left. *)
Fixpoint _add_msgs_depends (fuel : nat) (spec : spec_value)
    (deps : list string) (package_context : string)
    (includepath : option search_path) {struct fuel}
  : M registry (list string) :=
  match includepath with
  | None => raise three_arguments
  | Some path =>
      _ <- lift (global_name "log") ;;
      ts <- lift (spec_types spec) ;;
      (fix walk (ts : list string) (deps : list string)
         : M registry (list string) :=
         match ts with
         | [] => ret deps
         | t :: ts' =>
             let t := base_msg_type t in
             if is_builtin t then walk ts' deps
             else
               known <- reads (fun reg => is_registered reg t) ;;
               '(depspec, deps) <-
                 (if known : bool then
                    depspec <- registered t None ;;
                    ret (depspec,
                         if contains_slash t then append deps t
                         else append deps (package_context ++ "/" ++ t))
                  else
                    (* lazy-load *)
                    '(key, depspec) <-
                      (fun reg => (reg, load_by_type reg t path package_context)) ;;
                    _ <- lift (global_name "rosidl") ;;
                    _ <- modify (fun reg => register reg key depspec) ;;
                    ret (depspec, deps)) ;;
               deps <-
                 match fuel with
                 | O => raise RecursionDepthExceeded
                 | S fuel' =>
                     _add_msgs_depends fuel' depspec deps package_context
                                       includepath
                 end ;;
               walk ts' deps
         end) ts deps
  end.

(** The loop that builds [uniquedeps] from [deps]. *)
Definition unique (deps : list string) : list string :=
  fold_left (fun uniquedeps d =>
               if negb (mem d uniquedeps) then append uniquedeps d
               else uniquedeps)
            deps [].

(** [get_dependencies(spec, package, compute_files)] *)
Definition get_dependencies (fuel : nat) (spec : spec_value)
    (package : string) (compute_files : bool) : M registry bundle :=
  _ <- modify msgs_init ;;
  let deps := [] in
  deps <-
    except_KeyError
      (match spec with
       | Msg _ => _add_msgs_depends fuel spec deps package None
       | Srv s =>
           deps <- _add_msgs_depends fuel (Msg (request s)) deps package None ;;
           _add_msgs_depends fuel (Msg (response s)) deps package None
       | Other _ => raise not_a_spec
       end)
      (fun e =>
         raise (MsgSpecException
                  ("Cannot load type '" ++ e ++
                   "'.  Perhaps the package is missing a dependency."))) ;;
  let files :=
    if compute_files then
      Some (fun d =>
              if mem d deps then
                let '(d_pkg, t) := package_resource_name d in
                let d_pkg := or_else d_pkg package in
                Some (msg_file d_pkg t)
              else None)
    else None in
  let uniquedeps := unique deps in
  ret (mkBundle files deps spec package uniquedeps).

(** The line [compute_md5_text] writes for a constant. *)
Definition constant_line (c : Constant) : string :=
  type c ++ " " ++ name c ++ "=" ++ val_text c ++ newline.

(** The line it writes for a field, with the declared type or with the
    fingerprint of the sub-type in front. *)
Definition field_line (type_or_md5 name : string) : string :=
  type_or_md5 ++ " " ++ name ++ newline.

(** The loop of [compute_md5_text] over [zip(spec.types, spec.names)];
    [buff] is what has been written so far. *)
Fixpoint md5_text_fields
    (compute_md5 : bundle -> M registry string) (fuel : nat)
    (package : string) (compute_files : bool)
    (l : list (string * string)) (buff : string) : M registry string :=
  match l with
  | [] => ret buff
  | (type_, name) :: l' =>
      let base_msg_type := base_msg_type type_ in
      if is_builtin base_msg_type then
        md5_text_fields compute_md5 fuel package compute_files l'
                        (buff ++ field_line type_ name)
      else
        let '(sub_pkg, _) := package_resource_name base_msg_type in
        let sub_pkg := or_else sub_pkg package in
        sub_spec <- registered base_msg_type (Some package) ;;
        sub_deps <- get_dependencies fuel sub_spec sub_pkg compute_files ;;
        sub_md5 <- compute_md5 sub_deps ;;
        md5_text_fields compute_md5 fuel package compute_files l'
                        (buff ++ field_line sub_md5 name)
  end.

(** [compute_md5_text(get_deps_dict, spec)]. The module's functions call
    one another in a cycle ([compute_md5_text] calls [compute_md5], which
    calls [_compute_hash], which calls [compute_md5_text]): here the
    function receives the [compute_md5] it calls. *)
Definition compute_md5_text_with
    (compute_md5 : bundle -> M registry string) (fuel : nat)
    (get_deps_dict : bundle) (spec : MsgSpec) : M registry string :=
  let package := package get_deps_dict in
  let compute_files :=
    match files get_deps_dict with Some _ => true | None => false end in
  let buff := EmptyString in
  let buff :=
    fold_left (fun buff c => buff ++ constant_line c) (constants spec) buff in
  buff <-
    md5_text_fields compute_md5 fuel package compute_files
                    (zip (types spec) (names spec)) buff ;;
  ret (strip buff).

(** [_compute_hash(get_deps_dict, hash)], given the [compute_md5_text] it
    calls. *)
Definition _compute_hash_with
    (compute_md5_text : bundle -> MsgSpec -> M registry string)
    (get_deps_dict : bundle) (hash : hash_object) : M registry string :=
  let spec := spec get_deps_dict in
  hash <-
    match spec with
    | Msg m =>
        t <- compute_md5_text get_deps_dict m ;;
        ret (update hash t)
    | Srv s =>
        t <- compute_md5_text get_deps_dict (request s) ;;
        let hash := update hash t in
        t <- compute_md5_text get_deps_dict (response s) ;;
        ret (update hash t)
    | Other o => raise (not_a_message_or_service o)
    end ;;
  ret (hexdigest hash).

(** [compute_md5(get_deps_dict)], also bound to [compute_md5_v2];
    [fuel] is the recursion depth left. *)
Fixpoint compute_md5 (fuel : nat) (get_deps_dict : bundle) {struct fuel}
  : M registry string :=
  _compute_hash_with
    (compute_md5_text_with
       (fun sub_deps =>
          match fuel with
          | O => raise RecursionDepthExceeded
          | S fuel' => compute_md5 fuel' sub_deps
          end)
       fuel)
    get_deps_dict md5_new.

Definition compute_md5_v2 := compute_md5.

(** [compute_md5_text] with the [compute_md5] of the module. *)
Definition compute_md5_text (fuel : nat)
  : bundle -> MsgSpec -> M registry string :=
  compute_md5_text_with
    (fun sub_deps =>
       match fuel with
       | O => raise RecursionDepthExceeded
       | S fuel' => compute_md5 fuel' sub_deps
       end)
    fuel.

(** [_compute_hash] with the [compute_md5_text] of the module. *)
Definition _compute_hash (fuel : nat)
  : bundle -> hash_object -> M registry string :=
  _compute_hash_with (compute_md5_text fuel).

(** The loop of [_compute_hash_v1] over [uniquedeps]. *)
Fixpoint hash_v1_dependencies (l : list string) (hash : hash_object)
  : M registry hash_object :=
  match l with
  | [] => ret hash
  | d :: l' =>
      s <- registered d None ;;
      t <- lift (spec_text s) ;;
      hash_v1_dependencies l' (update hash t)
  end.

(** [_compute_hash_v1(get_deps_dict, hash)] *)
Definition _compute_hash_v1 (get_deps_dict : bundle) (hash : hash_object)
  : M registry string :=
  let uniquedeps := uniquedeps get_deps_dict in
  let spec := spec get_deps_dict in
  t <- lift (spec_text spec) ;;
  let hash := update hash t in
  hash <- hash_v1_dependencies uniquedeps hash ;;
  ret (hexdigest hash).

(** [compute_md5_v1(get_deps_dict)] *)
Definition compute_md5_v1 (get_deps_dict : bundle) : M registry string :=
  _compute_hash_v1 get_deps_dict md5_new.

(** The 80-character separator line. *)
Definition sep : string := replicate 80 "="%char ++ newline.

(** The loop of [compute_full_text] over [uniquedeps]. *)
Fixpoint full_text_dependencies (l : list string) (buff : string)
  : M registry string :=
  match l with
  | [] => ret buff
  | d :: l' =>
      let buff := buff ++ sep in
      let buff := buff ++ ("MSG: " ++ d ++ newline) in
      s <- registered d None ;;
      t <- lift (spec_text s) ;;
      let buff := buff ++ t in
      let buff := buff ++ newline in
      full_text_dependencies l' buff
  end.

(** [compute_full_text(get_deps_dict)] *)
Definition compute_full_text (get_deps_dict : bundle) : M registry string :=
  let buff := EmptyString in
  t <- lift (spec_text (spec get_deps_dict)) ;;
  let buff := buff ++ t in
  let buff := buff ++ newline in
  buff <- full_text_dependencies (uniquedeps get_deps_dict) buff ;;
  ret (drop_last buff).

End Gentools.

(* ================================================================== *)
(** ** A registry to run the functions on *)
(* ================================================================== *)

Module Sample.

(** [type_[:type_.find('[')]] *)
Fixpoint before_bracket (t : string) : string :=
  match t with
  | EmptyString => EmptyString
  | String c t' =>
      if Ascii.eqb c "["%char then EmptyString else String c (before_bracket t')
  end.

(** The name split at its first ['/']; no package when there is none. *)
Fixpoint split_slash (t : string) : option (string * string) :=
  match t with
  | EmptyString => None
  | String c t' =>
      if Ascii.eqb c "/"%char then Some (EmptyString, t')
      else match split_slash t' with
           | Some (p, n) => Some (String c p, n)
           | None => None
           end
  end.

Fixpoint lookup {A : Type} (k : string) (l : list (string * A)) : option A :=
  match l with
  | [] => None
  | (k', v) :: l' => if String.eqb k k' then Some v else lookup k l'
  end.

Definition primitive_types : list string :=
  [ "int8"; "uint8"; "int16"; "uint16"; "int32"; "uint32"; "int64";
    "uint64"; "float32"; "float64"; "string"; "bool"; "char"; "byte";
    "time"; "duration" ].

(** Modelled from the spec: the collaborators of section 6 ([is_builtin],
    [is_registered], [get_registered], [load_by_type], [register],
    [base_msg_type], [package_resource_name], [msg_file]) live in
    [genmsg.msgs] and [genmsg.names], outside this module. The registry
    is a table from type names to schemas, a type is looked up under its
    name and then, when it is unqualified, under the context package;
    the search path is the table of definitions that can be loaded. *)
#[export] Instance msgs : Msgs := {|
  registry := list (string * spec_value);
  search_path := list (string * spec_value);
  msgs_init := fun reg => reg;
  base_msg_type := before_bracket;
  is_builtin := fun t => mem t primitive_types;
  is_registered := fun reg t =>
    match lookup t reg with Some _ => true | None => false end;
  get_registered := fun reg t default_package =>
    match lookup t reg, default_package with
    | Some s, _ => Some s
    | None, Some p =>
        if contains_slash t then None else lookup (p ++ "/" ++ t) reg
    | None, None => None
    end;
  load_by_type := fun reg t path package_context =>
    let key := if contains_slash t then t else package_context ++ "/" ++ t in
    match lookup key path with
    | Some s => Ok (key, s)
    | None => Raise (Exception ("Cannot locate message [" ++ t ++ "]"))
    end;
  register := fun reg key s => (key, s) :: reg;
  package_resource_name := fun t =>
    match split_slash t with
    | Some (p, n) => (p, n)
    | None => (EmptyString, t)
    end;
  msg_file := fun p t => p ++ "/msg/" ++ t ++ ".msg"
|}.

(** [Point{float64 x; float64 y}] *)
Definition Point : MsgSpec :=
  mkMsgSpec ["float64"; "float64"] ["x"; "y"] []
            ("float64 x" ++ newline ++ "float64 y" ++ newline).

(** [Point] with a comment in its raw text. *)
Definition CommentedPoint : MsgSpec :=
  mkMsgSpec ["float64"; "float64"] ["x"; "y"] []
            ("# a point" ++ newline ++ "float64 x" ++ newline ++
             "float64 y" ++ newline).

(** [Polygon{Point[] points}] *)
Definition Polygon : MsgSpec :=
  mkMsgSpec ["Point[]"] ["points"] [] ("Point[] points" ++ newline).

(** A message with the one field [int32 a]. *)
Definition IntA : MsgSpec :=
  mkMsgSpec ["int32"] ["a"] [] ("int32 a" ++ newline).

(** A message with the one field [int32 b]. *)
Definition IntB : MsgSpec :=
  mkMsgSpec ["int32"] ["b"] [] ("int32 b" ++ newline).

(** A message with no field and no constant. *)
Definition Empty : MsgSpec := mkMsgSpec [] [] [] EmptyString.

(** Two constants, then an array field. *)
Definition Limits : MsgSpec :=
  mkMsgSpec ["float64[3]"] ["v"]
            [ mkConstant "int32" "LO" "1"; mkConstant "int32" "HI" "9" ]
            ("int32 LO=1" ++ newline ++ "float64[3] v" ++ newline ++
             "int32 HI=9" ++ newline).

(** The registry with [Point] in package [pkg]. *)
Definition reg : @registry msgs := [ ("pkg/Point", Msg Point) ].

(** A bundle with root [root] and the dependencies [ds]. *)
Definition bundle_of (root : spec_value) (ds : list string) : bundle :=
  mkBundle None ds root "pkg" ds.

(** A service and the service with its request and response swapped. *)
Definition Ask : SrvSpec :=
  mkSrvSpec Empty IntB ("---" ++ newline ++ "int32 b" ++ newline).

Definition Ksa : SrvSpec :=
  mkSrvSpec IntB Empty ("int32 b" ++ newline ++ "---" ++ newline).

(** An object that is no schema but has a [text]. *)
Definition Element : PyObject :=
  mkPyObject (Ok "<Element>") None (Str "x").

(** The tuple [(1, 2)]. *)
Definition Pair : PyObject :=
  mkPyObject (Ok "(1, 2)") (Some [Ok "1"; Ok "2"]) NoAttribute.

End Sample.

(* ================================================================== *)
(** ** Closed forms the functions are compared with *)
(* ================================================================== *)

(** The strings of a list, one after the other. *)
Definition join (l : list string) : string :=
  fold_right String.append EmptyString l.

(** Every constant's line, then every field's line with its declared
    type. *)
Definition canonical_lines (spec : MsgSpec) : string :=
  join (map constant_line (constants spec)) ++
  join (map (fun f => field_line (fst f) (snd f))
            (zip (types spec) (names spec))).

(** The elements of a list, each at its first occurrence. *)
Fixpoint first_occurrences (l : list string) : list string :=
  match l with
  | [] => []
  | x :: l' =>
      x :: filter (fun y => negb (String.eqb y x)) (first_occurrences l')
  end.

(** Whether the last character is a line feed. *)
Fixpoint ends_with_newline (s : string) : bool :=
  match s with
  | EmptyString => false
  | String c EmptyString => Ascii.eqb c (ascii_of_nat 10)
  | String _ s' => ends_with_newline s'
  end.

(** What [compute_full_text] writes for the dependency [d] of text [t]. *)
Definition embedded (d t : string) : string :=
  sep ++ "MSG: " ++ d ++ newline ++ t ++ newline.

(** The whole document, before its last character is cut. *)
Definition document (root : string) (ds : list (string * string)) : string :=
  root ++ newline ++ join (map (fun p => embedded (fst p) (snd p)) ds).

(** The bytes the current scheme digests for a schema with builtin
    fields: the stripped lines of a message, those of a request followed
    by those of the response. *)
Definition canonical_text (s : spec_value) : string :=
  match s with
  | Msg m => strip (canonical_lines m)
  | Srv s =>
      strip (canonical_lines (request s)) ++
      strip (canonical_lines (response s))
  | Other _ => EmptyString
  end.

(** A digit or one of [a] to [f]. *)
Definition is_lower_hex (c : ascii) : bool :=
  let n := nat_of_ascii c in
  (Nat.leb 48 n && Nat.leb n 57) || (Nat.leb 97 n && Nat.leb n 102).

Section Predicates.
Context `{Msgs}.

(** Every field of the schema has a builtin base type. *)
Definition all_builtin (spec : MsgSpec) : bool :=
  forallb (fun f => is_builtin (base_msg_type (fst f)))
          (zip (types spec) (names spec)).

(** [d] is registered in [reg], with a schema of raw text [t]. *)
Definition has_text (reg : registry) (d t : string) : Prop :=
  exists s, get_registered reg d None = Some s /\ spec_text s = Ok t.

(** The values the current scheme gives a fingerprint to: schemas whose
    fields all have builtin base types. *)
Definition fingerprintable (s : spec_value) : bool :=
  match s with
  | Msg m => all_builtin m
  | Srv s => all_builtin (request s) && all_builtin (response s)
  | Other _ => false
  end.

(** The two fingerprint schemes. *)
Inductive scheme : Type := Current | Legacy.

(** The fingerprint of a bundle under a scheme. *)
Definition fingerprint (sch : scheme) (fuel : nat) (d : bundle)
  : M registry string :=
  match sch with
  | Current => compute_md5 fuel d
  | Legacy => compute_md5_v1 d
  end.

End Predicates.

(* ================================================================== *)
(** ** Properties *)
(* ================================================================== *)

(** The test suite of RFC 1321, appendix A.5, and a two-block message. *)
Example md5_empty :
  MD5.hexdigest "" = "d41d8cd98f00b204e9800998ecf8427e".
Proof. vm_compute. reflexivity. Qed.

Example md5_a :
  MD5.hexdigest "a" = "0cc175b9c0f1b6a831c399e269772661".
Proof. vm_compute. reflexivity. Qed.

Example md5_abc :
  MD5.hexdigest "abc" = "900150983cd24fb0d6963f7d28e17f72".
Proof. vm_compute. reflexivity. Qed.

Example md5_two_blocks :
  MD5.hexdigest
    "12345678901234567890123456789012345678901234567890123456789012345678901234567890"
  = "57edf4a22be3c955ac49da2e2107b67a".
Proof. vm_compute. reflexivity. Qed.

(** *** Strings *)

Lemma append_assoc (a b c : string) : (a ++ b) ++ c = a ++ (b ++ c).
Proof. induction a as [|x a IH]; simpl; [reflexivity | now rewrite IH]. Qed.

Lemma append_nil_r (a : string) : a ++ "" = a.
Proof. induction a as [|x a IH]; simpl; [reflexivity | now rewrite IH]. Qed.

Lemma join_app (l1 l2 : list string) :
  join (l1 ++ l2) = join l1 ++ join l2.
Proof.
  induction l1 as [|x l1 IH]; simpl; [reflexivity|].
  now rewrite IH, append_assoc.
Qed.

(** *** Dependency resolution *)

Section Resolution.
Context `{Msgs}.

(** A call with three arguments does not reach the body. *)
Lemma add_msgs_depends_three_arguments fuel spec deps package_context reg :
  _add_msgs_depends fuel spec deps package_context None reg
  = (reg, Raise three_arguments).
Proof. destruct fuel; reflexivity. Qed.

(** A call with four arguments stops at the first statement of the body. *)
Lemma add_msgs_depends_log fuel spec deps package_context path reg :
  _add_msgs_depends fuel spec deps package_context (Some path) reg
  = (reg, Raise (NameError "log")).
Proof. destruct fuel; reflexivity. Qed.

(** What [get_dependencies] does, for each kind of value. *)
Lemma get_dependencies_raises fuel spec package compute_files reg :
  get_dependencies fuel spec package compute_files reg
  = (msgs_init reg,
     Raise match spec with
           | Msg _ | Srv _ => three_arguments
           | Other _ => not_a_spec
           end).
Proof.
  unfold get_dependencies, bind, modify, except_KeyError.
  destruct spec as [m|s|o]; simpl.
  - now rewrite add_msgs_depends_three_arguments.
  - unfold bind. now rewrite add_msgs_depends_three_arguments.
  - reflexivity.
Qed.

(** C6. [get_dependencies] never returns a bundle. For a message or a
    service it calls [_add_msgs_depends] with three arguments, which
    raises [TypeError] (not the [KeyError] the call is guarded against)
    before any field type is walked; the body of [_add_msgs_depends],
    when it is entered with four arguments, raises [NameError] on [log]
    as its first statement and leaves the registry as it was; [rosidl]
    is not bound either. *)
Theorem get_dependencies_never_returns
    (fuel : nat) (spec : spec_value) (package : string)
    (compute_files : bool) (reg : registry) :
  (forall reg' b,
     get_dependencies fuel spec package compute_files reg <> (reg', Ok b))
  /\ get_dependencies fuel spec package compute_files reg
     = (msgs_init reg,
        Raise match spec with
              | Msg _ | Srv _ => three_arguments
              | Other _ => not_a_spec
              end)
  /\ (forall deps,
        _add_msgs_depends fuel spec deps package None reg
        = (reg, Raise three_arguments))
  /\ (forall deps path,
        _add_msgs_depends fuel spec deps package (Some path) reg
        = (reg, Raise (NameError "log")))
  /\ global_name "log" = Raise (NameError "log")
  /\ global_name "rosidl" = Raise (NameError "rosidl").
Proof.
  repeat split.
  - intros reg' b. rewrite get_dependencies_raises. discriminate.
  - apply get_dependencies_raises.
  - intros. apply add_msgs_depends_three_arguments.
  - intros. apply add_msgs_depends_log.
Qed.

End Resolution.

(** *** [strip] and the last line feed *)

Lemma py_isspace_newline c :
  Ascii.eqb c (ascii_of_nat 10) = true -> py_isspace c = true.
Proof. intros E. apply Ascii.eqb_eq in E. now subst c. Qed.

Lemma rstrip_no_newline s : ends_with_newline (rstrip s) = false.
Proof.
  induction s as [|c s IH]; simpl; [reflexivity|].
  destruct (rstrip s) as [|c' r] eqn:E.
  - destruct (py_isspace c) eqn:Sp; simpl; [reflexivity|].
    destruct (Ascii.eqb c (ascii_of_nat 10)) eqn:Nl; [|reflexivity].
    apply py_isspace_newline in Nl. congruence.
  - exact IH.
Qed.

Lemma strip_no_newline s : ends_with_newline (strip s) = false.
Proof. apply rstrip_no_newline. Qed.

Lemma rstrip_newline s : rstrip (s ++ newline) = rstrip s.
Proof.
  induction s as [|c s IH]; simpl; [reflexivity|].
  now rewrite IH.
Qed.

Lemma lstrip_length s : String.length (lstrip s) <= String.length s.
Proof.
  induction s as [|c s IH]; simpl; [lia|].
  destruct (py_isspace c); simpl; lia.
Qed.

Lemma lstrip_fixed_app s t : lstrip s = s -> s <> "" -> lstrip (s ++ t) = s ++ t.
Proof.
  destruct s as [|c s]; [congruence|]. simpl. intros E _.
  destruct (py_isspace c); [|reflexivity].
  pose proof (lstrip_length s) as L. rewrite E in L. simpl in L. lia.
Qed.

(** A text with no white space at either end, followed by a line feed,
    is stripped to that text. *)
Lemma strip_line body :
  lstrip body = body -> rstrip body = body -> strip (body ++ newline) = body.
Proof.
  intros L R. unfold strip. destruct body as [|c b].
  - reflexivity.
  - rewrite lstrip_fixed_app by (assumption || discriminate).
    now rewrite rstrip_newline.
Qed.

(** *** The canonical text *)

Section Canonical.
Context `{Msgs}.

Lemma fold_constants cs buff :
  fold_left (fun buff c => buff ++ constant_line c) cs buff
  = buff ++ join (map constant_line cs).
Proof.
  revert buff. induction cs as [|c cs IH]; intros buff; simpl.
  - now rewrite append_nil_r.
  - now rewrite IH, append_assoc.
Qed.

(** Fields of builtin types: one line each, the registry untouched. *)
Lemma md5_text_fields_builtin compute_md5 fuel package compute_files l :
  forallb (fun f => is_builtin (base_msg_type (fst f))) l = true ->
  forall buff reg,
    md5_text_fields compute_md5 fuel package compute_files l buff reg
    = (reg, Ok (buff ++ join (map (fun f => field_line (fst f) (snd f)) l))).
Proof.
  induction l as [|[t n] l IH]; simpl; intros B buff reg.
  - unfold ret. now rewrite append_nil_r.
  - apply andb_prop in B. destruct B as [Bt Bl].
    rewrite Bt, (IH Bl). now rewrite append_assoc.
Qed.

(** A field of another type: the loop raises, whatever is registered. *)
Lemma md5_text_fields_other compute_md5 fuel package compute_files l :
  forallb (fun f => is_builtin (base_msg_type (fst f))) l = false ->
  forall buff reg, exists reg' e,
    md5_text_fields compute_md5 fuel package compute_files l buff reg
    = (reg', Raise e).
Proof.
  induction l as [|[t n] l IH]; simpl; intros B buff reg; [discriminate|].
  destruct (is_builtin (base_msg_type t)) eqn:Bt; simpl in B.
  - apply (IH B).
  - destruct (package_resource_name (base_msg_type t)) as [sub_pkg r].
    unfold bind at 1, registered.
    destruct (get_registered reg (base_msg_type t) (Some package))
      as [sub_spec|]; [|eauto].
    unfold bind at 1. rewrite get_dependencies_raises. eauto.
Qed.

Lemma compute_md5_text_with_builtin compute_md5 fuel d spec reg :
  all_builtin spec = true ->
  compute_md5_text_with compute_md5 fuel d spec reg
  = (reg, Ok (strip (canonical_lines spec))).
Proof.
  intros B. unfold compute_md5_text_with, bind.
  rewrite (md5_text_fields_builtin _ _ _ _ _ B).
  now rewrite fold_constants.
Qed.

Lemma compute_md5_text_with_other compute_md5 fuel d spec reg :
  all_builtin spec = false ->
  exists reg' e,
    compute_md5_text_with compute_md5 fuel d spec reg = (reg', Raise e).
Proof.
  intros B. unfold compute_md5_text_with, bind.
  destruct (md5_text_fields_other compute_md5 fuel (package d)
              match files d with Some _ => true | None => false end _ B
              (fold_left (fun buff c => buff ++ constant_line c)
                         (constants spec) "") reg)
    as (reg' & e & E).
  rewrite E. eauto.
Qed.

(** A canonical text, when there is one, is that of the lines, and the
    registry is as it was. *)
Lemma compute_md5_text_ok fuel d spec reg reg' t :
  compute_md5_text fuel d spec reg = (reg', Ok t) ->
  all_builtin spec = true /\ reg' = reg /\ t = strip (canonical_lines spec).
Proof.
  unfold compute_md5_text. intros E.
  destruct (all_builtin spec) eqn:B.
  - rewrite compute_md5_text_with_builtin in E by assumption.
    now inversion E.
  - destruct (compute_md5_text_with_other
                (fun sub_deps =>
                   match fuel with
                   | O => raise RecursionDepthExceeded
                   | S fuel' => compute_md5 fuel' sub_deps
                   end) fuel d spec reg B) as (r & e & E').
    rewrite E' in E. discriminate.
Qed.

(** C1. For a message schema whose fields all have builtin base types,
    the canonical text is made of one line [<type> <name>=<value>] per
    constant, in declaration order and ahead of every field line, then
    one line [<type> <name>] per field with the declared type text as it
    is, the whole passed through [strip]: the text does not end with a
    line feed, and it is the lines without their last line feed when
    these carry no white space at either end. *)
Theorem compute_md5_text_builtin
    (fuel : nat) (d : bundle) (spec : MsgSpec) (reg : registry) :
  all_builtin spec = true ->
  compute_md5_text fuel d spec reg = (reg, Ok (strip (canonical_lines spec)))
  /\ canonical_lines spec
     = join (map (fun c => type c ++ " " ++ name c ++ "=" ++ val_text c ++
                           newline)
                 (constants spec)) ++
       join (map (fun f => fst f ++ " " ++ snd f ++ newline)
                 (zip (types spec) (names spec)))
  /\ ends_with_newline (strip (canonical_lines spec)) = false
  /\ (forall body,
        canonical_lines spec = body ++ newline ->
        lstrip body = body -> rstrip body = body ->
        strip (canonical_lines spec) = body).
Proof.
  intros B. repeat split.
  - now apply compute_md5_text_with_builtin.
  - apply strip_no_newline.
  - intros body E L R. rewrite E. now apply strip_line.
Qed.

End Canonical.

(** *** Fingerprints *)

Section Fingerprints.
Context `{Msgs}.

Lemma compute_md5_unfold fuel d :
  compute_md5 fuel d = _compute_hash fuel d md5_new.
Proof. destruct fuel; reflexivity. Qed.

Lemma fold_update texts h : fold_left update texts h = h ++ join texts.
Proof.
  revert h. induction texts as [|t texts IH]; intros h; simpl.
  - now rewrite append_nil_r.
  - rewrite IH. unfold update. now rewrite append_assoc.
Qed.

(** The fingerprint of a message, from its canonical text. *)
Lemma compute_md5_message fuel d m reg reg1 t :
  spec d = Msg m ->
  compute_md5_text fuel d m reg = (reg1, Ok t) ->
  compute_md5 fuel d reg = (reg1, Ok (hexdigest (update md5_new t))).
Proof.
  intros S T. rewrite compute_md5_unfold.
  unfold _compute_hash, _compute_hash_with, bind. now rewrite S, T.
Qed.

(** The fingerprint of a service, from the two canonical texts. *)
Lemma compute_md5_request_response fuel d s reg reg1 reg2 a b :
  spec d = Srv s ->
  compute_md5_text fuel d (request s) reg = (reg1, Ok a) ->
  compute_md5_text fuel d (response s) reg1 = (reg2, Ok b) ->
  compute_md5 fuel d reg
  = (reg2, Ok (hexdigest (update (update md5_new a) b))).
Proof.
  intros S A B. rewrite compute_md5_unfold.
  unfold _compute_hash, _compute_hash_with, bind. now rewrite S, A, B.
Qed.

(** [compute_md5_text] reads the package and the presence of [files] in
    the bundle, nothing else. *)
Lemma compute_md5_text_bundle fuel d d' m :
  package d' = package d -> files d' = files d ->
  compute_md5_text fuel d' m = compute_md5_text fuel d m.
Proof.
  intros P F. unfold compute_md5_text, compute_md5_text_with.
  now rewrite P, F.
Qed.

(** A fingerprint, when there is one, leaves the registry as it was and
    does not depend on it. *)
Lemma compute_md5_ok fuel d reg reg1 s :
  compute_md5 fuel d reg = (reg1, Ok s) ->
  reg1 = reg /\ forall reg', compute_md5 fuel d reg' = (reg', Ok s).
Proof.
  intros E. rewrite compute_md5_unfold in E.
  unfold _compute_hash, _compute_hash_with, bind in E.
  destruct (spec d) as [m|v|o] eqn:S.
  - destruct (compute_md5_text fuel d m reg) as [r [t|e]] eqn:T;
      [|discriminate].
    apply compute_md5_text_ok in T. destruct T as (B & -> & ->).
    inversion E. subst. split; [reflexivity|].
    intros reg'. apply compute_md5_message with (m := m); [assumption|].
    now apply compute_md5_text_with_builtin.
  - destruct (compute_md5_text fuel d (request v) reg) as [r [a|e]] eqn:A;
      [|discriminate].
    apply compute_md5_text_ok in A. destruct A as (Ba & -> & ->).
    destruct (compute_md5_text fuel d (response v) reg) as [r [b|e]] eqn:B;
      [|discriminate].
    apply compute_md5_text_ok in B. destruct B as (Bb & -> & ->).
    inversion E. subst. split; [reflexivity|].
    intros reg'.
    apply compute_md5_request_response with (s := v) (reg1 := reg');
      [assumption| |]; now apply compute_md5_text_with_builtin.
  - discriminate.
Qed.

(** The legacy loop with every dependency registered: one update per
    dependency, in order. *)
Lemma hash_v1_dependencies_texts reg l texts :
  Forall2 (has_text reg) l texts ->
  forall h,
    hash_v1_dependencies l h reg = (reg, Ok (fold_left update texts h)).
Proof.
  induction 1 as [|d t l texts (s & G & T) _ IH]; intros h; simpl.
  - reflexivity.
  - unfold bind at 1, registered. rewrite G.
    unfold bind at 1, lift. rewrite T. apply IH.
Qed.

(** The legacy loop never changes the registry. *)
Lemma hash_v1_dependencies_registry l :
  forall h reg, fst (hash_v1_dependencies l h reg) = reg.
Proof.
  induction l as [|d l IH]; intros h reg; simpl; [reflexivity|].
  unfold bind at 1, registered.
  destruct (get_registered reg d None) as [s|]; [|reflexivity].
  unfold bind at 1, lift.
  destruct (spec_text s) as [t|e]; [apply IH | reflexivity].
Qed.

Lemma compute_md5_v1_registry d reg : fst (compute_md5_v1 d reg) = reg.
Proof.
  unfold compute_md5_v1, _compute_hash_v1, bind at 1, lift.
  destruct (spec_text (spec d)) as [t|e]; [|reflexivity].
  unfold bind.
  pose proof (hash_v1_dependencies_registry (uniquedeps d)
                (update md5_new t) reg) as R.
  destruct (hash_v1_dependencies (uniquedeps d) (update md5_new t) reg)
    as [r [h|e]]; exact R.
Qed.

Lemma compute_md5_v1_texts d reg root texts :
  spec_text (spec d) = Ok root ->
  Forall2 (has_text reg) (uniquedeps d) texts ->
  compute_md5_v1 d reg
  = (reg, Ok (hexdigest (fold_left update texts (update md5_new root)))).
Proof.
  intros R D. unfold compute_md5_v1, _compute_hash_v1, bind, lift.
  rewrite R. now rewrite (hash_v1_dependencies_texts D).
Qed.

(** C7. The legacy fingerprint of a bundle whose unique dependencies are
    all registered is the hex digest of one digest object updated with
    the raw text of the root schema and then with the raw text of each
    unique dependency, in the order of [uniquedeps]: the digest of these
    texts one after the other, as they are. *)
Theorem compute_md5_v1_digest
    (d : bundle) (reg : registry) (root : string) (texts : list string) :
  spec_text (spec d) = Ok root ->
  Forall2 (has_text reg) (uniquedeps d) texts ->
  compute_md5_v1 d reg
  = (reg, Ok (hexdigest (fold_left update texts (update md5_new root))))
  /\ hexdigest (fold_left update texts (update md5_new root))
     = MD5.hexdigest (root ++ join texts).
Proof.
  intros R D. split.
  - now apply compute_md5_v1_texts.
  - now rewrite fold_update.
Qed.

(** C3. The current fingerprint of a service is the hex digest of one
    digest object updated with the canonical text of the request and then
    with that of the response, which is the digest of the first text
    followed by the second. The service with request and response
    swapped has the digest of the second text followed by the first: the
    two fingerprints are equal as soon as the two texts give the same
    sequence in either order, as they do when one of them is empty. *)
Theorem compute_md5_service
    (fuel : nat) (d d' : bundle) (s s' : SrvSpec) (reg : registry)
    (a b : string) :
  spec d = Srv s -> spec d' = Srv s' ->
  package d' = package d -> files d' = files d ->
  request s' = response s -> response s' = request s ->
  compute_md5_text fuel d (request s) reg = (reg, Ok a) ->
  compute_md5_text fuel d (response s) reg = (reg, Ok b) ->
  compute_md5 fuel d reg
  = (reg, Ok (hexdigest (update (update md5_new a) b)))
  /\ compute_md5 fuel d' reg
     = (reg, Ok (hexdigest (update (update md5_new b) a)))
  /\ hexdigest (update (update md5_new a) b) = MD5.hexdigest (a ++ b)
  /\ hexdigest (update (update md5_new b) a) = MD5.hexdigest (b ++ a)
  /\ (a ++ b = b ++ a -> compute_md5 fuel d' reg = compute_md5 fuel d reg)
  /\ (a = "" -> compute_md5 fuel d' reg = compute_md5 fuel d reg).
Proof.
  intros S S' P F Rq Rs A B.
  assert (E : compute_md5 fuel d reg
              = (reg, Ok (hexdigest (update (update md5_new a) b)))).
  { now apply compute_md5_request_response with (s := s) (reg1 := reg). }
  assert (E' : compute_md5 fuel d' reg
               = (reg, Ok (hexdigest (update (update md5_new b) a)))).
  { apply compute_md5_request_response with (s := s') (reg1 := reg);
      [assumption| |]; rewrite (compute_md5_text_bundle fuel d d' _ P F).
    - now rewrite Rq.
    - now rewrite Rs. }
  assert (C : a ++ b = b ++ a ->
              compute_md5 fuel d' reg = compute_md5 fuel d reg).
  { intros AB. rewrite E, E'. unfold update, md5_new. simpl.
    now rewrite AB. }
  repeat split; try assumption.
  intros ->. apply C. simpl. now rewrite append_nil_r.
Qed.

(** C4. Under either scheme, when a fingerprint is computed and then
    computed again, on the registry the first computation has left, the
    second gives the same string; the first has left the registry as it
    found it. *)
Theorem fingerprint_deterministic
    (sch : scheme) (fuel : nat) (d : bundle) (reg reg1 : registry)
    (s : string) :
  fingerprint sch fuel d reg = (reg1, Ok s) ->
  fingerprint sch fuel d reg1 = (reg1, Ok s) /\ reg1 = reg.
Proof.
  destruct sch; simpl; intros E.
  - destruct (compute_md5_ok _ _ _ E) as [-> A]. split; [apply A | reflexivity].
  - pose proof (compute_md5_v1_registry d reg) as R.
    rewrite E in R. simpl in R. subst reg1. now split.
Qed.

(** C10. For a value [o] that is neither a message nor a service,
    dependency resolution raises [MsgSpecException] at once. The current
    scheme raises too: the exception that says the value is not a
    message or service when the value is no tuple or a tuple of one
    element, and the [TypeError] of formatting that message when it is
    the empty tuple or a tuple of two elements or more. The legacy
    scheme makes no such test: it raises only when the value has no
    [text] attribute or one that is not a string, and otherwise gives
    the digest of that text followed by the texts of the unique
    dependencies. *)
Theorem neither_message_nor_service
    (fuel : nat) (d : bundle) (o : PyObject) (package : string)
    (compute_files : bool) (reg : registry) :
  spec d = Other o ->
  get_dependencies fuel (spec d) package compute_files reg
  = (msgs_init reg, Raise not_a_spec)
  /\ compute_md5 fuel d reg = (reg, Raise (not_a_message_or_service o))
  /\ (forall s,
        obj_tuple o = None -> obj_str o = Ok s ->
        compute_md5 fuel d reg
        = (reg, Raise (Exception ("[" ++ s ++ "] is not a message or service"))))
  /\ (forall s,
        obj_tuple o = Some [Ok s] ->
        compute_md5 fuel d reg
        = (reg, Raise (Exception ("[" ++ s ++ "] is not a message or service"))))
  /\ (obj_tuple o = Some [] ->
      compute_md5 fuel d reg
      = (reg, Raise (TypeError "not enough arguments for format string")))
  /\ (forall s x rest,
        obj_tuple o = Some (Ok s :: x :: rest) ->
        compute_md5 fuel d reg
        = (reg,
           Raise (TypeError
                    "not all arguments converted during string formatting")))
  /\ (obj_text o = NoAttribute ->
      compute_md5_v1 d reg = (reg, Raise (AttributeError "text")))
  /\ (obj_text o = NotAString ->
      compute_md5_v1 d reg
      = (reg, Raise (TypeError "must be string or buffer")))
  /\ (forall t texts,
        obj_text o = Str t ->
        Forall2 (has_text reg) (uniquedeps d) texts ->
        compute_md5_v1 d reg = (reg, Ok (MD5.hexdigest (t ++ join texts)))).
Proof.
  intros S.
  assert (C : compute_md5 fuel d reg
              = (reg, Raise (not_a_message_or_service o))).
  { rewrite compute_md5_unfold.
    unfold _compute_hash, _compute_hash_with, bind. now rewrite S. }
  split; [now rewrite get_dependencies_raises, S|].
  split; [exact C|].
  split; [intros s T E; rewrite C;
          unfold not_a_message_or_service, format_not_a_message;
          now rewrite T, E|].
  split; [intros s T; rewrite C;
          unfold not_a_message_or_service, format_not_a_message;
          now rewrite T|].
  split; [intros T; rewrite C;
          unfold not_a_message_or_service, format_not_a_message;
          now rewrite T|].
  split; [intros s x rest T; rewrite C;
          unfold not_a_message_or_service, format_not_a_message;
          now rewrite T|].
  repeat split.
  - intros T. unfold compute_md5_v1, _compute_hash_v1, bind, lift,
      spec_text, text_attribute. now rewrite S, T.
  - intros T. unfold compute_md5_v1, _compute_hash_v1, bind, lift,
      spec_text, text_attribute. now rewrite S, T.
  - intros t texts T D.
    rewrite (compute_md5_v1_texts (root := t) (texts := texts) d);
      [ | | assumption].
    + unfold update at 2, md5_new. simpl. now rewrite fold_update.
    + unfold spec_text, text_attribute. now rewrite S, T.
Qed.

End Fingerprints.

(** *** The full text *)

Lemma drop_last_newline s : drop_last (s ++ newline) = s.
Proof.
  induction s as [|c s IH]; [reflexivity|].
  change (String c s ++ newline) with (String c (s ++ newline)).
  simpl. rewrite IH. now destruct s.
Qed.

(** The document ends with the line feed written last. *)
Lemma document_ends_with_newline root ds :
  exists body, document root ds = body ++ newline.
Proof.
  unfold document. revert root.
  induction ds as [|[d t] ds IH]; intros root; cbn [map join fold_right fst snd].
  - exists root. reflexivity.
  - destruct (IH (root ++ newline ++ sep ++ "MSG: " ++ d ++ newline ++ t))
      as [body E].
    exists body. rewrite <- E. unfold embedded.
    now rewrite !append_assoc.
Qed.

Section FullText.
Context `{Msgs}.

Lemma full_text_dependencies_texts reg l texts :
  Forall2 (has_text reg) l texts ->
  forall buff,
    full_text_dependencies l buff reg
    = (reg, Ok (buff ++ join (map (fun p => embedded (fst p) (snd p))
                                  (combine l texts)))).
Proof.
  induction 1 as [|d t l texts (s & G & T) _ IH]; intros buff;
    cbn [full_text_dependencies combine map join fold_right fst snd].
  - unfold ret. now rewrite append_nil_r.
  - unfold bind at 1, registered. rewrite G.
    unfold bind at 1, lift. rewrite T. rewrite IH.
    unfold embedded, join. now rewrite !append_assoc.
Qed.

Lemma compute_full_text_texts d reg root texts :
  spec_text (spec d) = Ok root ->
  Forall2 (has_text reg) (uniquedeps d) texts ->
  compute_full_text d reg
  = (reg, Ok (drop_last (document root (combine (uniquedeps d) texts)))).
Proof.
  intros R D. unfold compute_full_text, bind, lift. rewrite R.
  rewrite (full_text_dependencies_texts D). unfold ret, document.
  cbn [String.append]. now rewrite append_assoc.
Qed.

(** C8. The full text of a bundle whose unique dependencies are all
    registered is the document made of the raw text of the root schema, a
    line feed, and for each unique dependency in order the line of eighty
    [=], the line [MSG: <type>], the raw text registered for it and a line
    feed, with its last character, the line feed written last, cut off. *)
Theorem compute_full_text_document
    (d : bundle) (reg : registry) (root : string) (texts : list string) :
  spec_text (spec d) = Ok root ->
  Forall2 (has_text reg) (uniquedeps d) texts ->
  let doc :=
    root ++ newline ++
    join (map (fun p => (replicate 80 "="%char ++ newline) ++
                        "MSG: " ++ fst p ++ newline ++ snd p ++ newline)
              (combine (uniquedeps d) texts)) in
  compute_full_text d reg = (reg, Ok (drop_last doc))
  /\ drop_last doc ++ newline = doc.
Proof.
  intros R D doc. split.
  - now apply compute_full_text_texts.
  - destruct (document_ends_with_newline root (combine (uniquedeps d) texts))
      as [body E].
    change doc with (document root (combine (uniquedeps d) texts)).
    rewrite E. now rewrite drop_last_newline.
Qed.

(** C9. With root text [int32 a] and the one dependency [pkg/Point] of
    text [float64 x], [float64 y], the full text is the root text, an
    empty line, the line of eighty [=], the line [MSG: pkg/Point] and the
    two lines of [Point], the last of them with its line feed. *)
Theorem compute_full_text_point (d : bundle) (reg : registry) :
  spec_text (spec d) = Ok ("int32 a" ++ newline) ->
  uniquedeps d = ["pkg/Point"] ->
  has_text reg "pkg/Point" ("float64 x" ++ newline ++ "float64 y" ++ newline) ->
  compute_full_text d reg
  = (reg,
     Ok ("int32 a" ++ newline ++ newline ++
         replicate 80 "="%char ++ newline ++
         "MSG: pkg/Point" ++ newline ++
         "float64 x" ++ newline ++ "float64 y" ++ newline)).
Proof.
  intros R U P.
  rewrite (compute_full_text_texts (root := "int32 a" ++ newline)
             (texts := ["float64 x" ++ newline ++ "float64 y" ++ newline]) d);
    [ | assumption | rewrite U; repeat constructor; assumption ].
  rewrite U. reflexivity.
Qed.

End FullText.

(** *** The list of unique dependencies *)

Lemma mem_In d l : mem d l = true <-> In d l.
Proof.
  unfold mem. rewrite existsb_exists. split.
  - intros (x & I & E). apply String.eqb_eq in E. now subst.
  - intros I. exists d. split; [assumption | apply String.eqb_refl].
Qed.

Lemma filter_comm {A : Type} (p q : A -> bool) l :
  filter p (filter q l) = filter q (filter p l).
Proof.
  induction l as [|x l IH]; simpl; [reflexivity|].
  destruct (q x) eqn:Q, (p x) eqn:P; simpl; rewrite ?Q, ?P, IH; reflexivity.
Qed.

Lemma filter_absorb (p : string -> bool) y l :
  p y = false ->
  filter p (filter (fun z => negb (String.eqb z y)) l) = filter p l.
Proof.
  intros P. induction l as [|z l IH]; simpl; [reflexivity|].
  destruct (String.eqb_spec z y) as [->|N]; simpl.
  - now rewrite P.
  - now rewrite IH.
Qed.

Lemma first_occurrences_filter p l :
  first_occurrences (filter p l) = filter p (first_occurrences l).
Proof.
  induction l as [|y l IH]; simpl; [reflexivity|].
  destruct (p y) eqn:P; simpl; rewrite ?P, IH.
  - now rewrite filter_comm.
  - now rewrite filter_absorb.
Qed.

(** The loop of [get_dependencies], from any list built so far. *)
Lemma unique_loop l :
  forall acc,
    fold_left (fun uniquedeps d =>
                 if negb (mem d uniquedeps) then append uniquedeps d
                 else uniquedeps) l acc
    = (acc ++ first_occurrences
                (filter (fun d => negb (mem d acc)) l))%list.
Proof.
  induction l as [|x l IH]; intros acc; simpl.
  - now rewrite app_nil_r.
  - destruct (mem x acc) eqn:Mx; simpl.
    + apply IH.
    + rewrite IH. unfold append. rewrite <- app_assoc. simpl.
      do 2 f_equal. rewrite <- first_occurrences_filter. f_equal.
      rewrite filter_comm.
      clear. induction l as [|z l IHl]; simpl; [reflexivity|].
      unfold mem at 1. rewrite existsb_app. simpl.
      fold (mem z acc). rewrite orb_false_r, negb_orb.
      destruct (String.eqb z x); simpl.
      * rewrite andb_false_r. exact IHl.
      * rewrite andb_true_r.
        destruct (mem z acc); simpl; [exact IHl | now rewrite IHl].
Qed.

(** [uniquedeps] holds the types of [deps], each where it first occurs. *)
Lemma unique_first_occurrences deps : unique deps = first_occurrences deps.
Proof.
  unfold unique. rewrite unique_loop. simpl. f_equal.
  induction deps as [|x l IH]; simpl; [reflexivity | now rewrite IH].
Qed.

Lemma first_occurrences_In d l : In d (first_occurrences l) <-> In d l.
Proof.
  induction l as [|x l IH]; simpl; [tauto|].
  rewrite filter_In, IH. destruct (String.eqb_spec d x) as [->|N]; simpl.
  - split; auto.
  - split; [intros [E|[I _]]; auto | intros [E|I]; [now left | now right]].
Qed.

Lemma first_occurrences_NoDup l : NoDup (first_occurrences l).
Proof.
  induction l as [|x l IH]; simpl; constructor.
  - rewrite filter_In. intros [_ E]. now rewrite String.eqb_refl in E.
  - now apply NoDup_filter.
Qed.

(** No type twice in [uniquedeps], and the same types as in [deps]. *)
Lemma unique_NoDup deps :
  NoDup (unique deps) /\ forall d, In d (unique deps) <-> In d deps.
Proof.
  rewrite unique_first_occurrences. split.
  - apply first_occurrences_NoDup.
  - intros d. apply first_occurrences_In.
Qed.

Example unique_diamond :
  unique ["b/B"; "d/D"; "c/C"; "d/D"; "b/B"] = ["b/B"; "d/D"; "c/C"].
Proof. reflexivity. Qed.

(* ================================================================== *)
(** ** The functions on the sample registry *)
(* ================================================================== *)

Module OnSample.
Import Sample.

(** The scenario of [Point]: its canonical text and its fingerprint. *)
Example point_text :
  compute_md5_text 8 (bundle_of (Msg Point) []) Point reg
  = (reg, Ok ("float64 x" ++ newline ++ "float64 y")).
Proof. reflexivity. Qed.

Example point_md5 :
  compute_md5 8 (bundle_of (Msg Point) []) reg
  = (reg, Ok "209f516d3eb691f0663e25cb750d67c1").
Proof. vm_compute. reflexivity. Qed.

(** Swapping two texts that do not commute changes this fingerprint. *)
Example swapped_int_services :
  compute_md5 8 (bundle_of (Srv (mkSrvSpec IntA IntB "")) []) reg
  <> compute_md5 8 (bundle_of (Srv (mkSrvSpec IntB IntA "")) []) reg.
Proof. vm_compute. discriminate. Qed.

Lemma compute_md5_text_builtin_witness :
  compute_md5_text 8 (bundle_of (Msg Limits) []) Limits reg
  = (reg, Ok ("int32 LO=1" ++ newline ++ "int32 HI=9" ++ newline ++
              "float64[3] v")).
Proof.
  destruct (@compute_md5_text_builtin msgs 8 (bundle_of (Msg Limits) [])
              Limits reg eq_refl) as (E & _ & _ & B).
  rewrite E.
  rewrite (B ("int32 LO=1" ++ newline ++ "int32 HI=9" ++ newline ++
              "float64[3] v")) by reflexivity.
  reflexivity.
Defined.

(** C2. [Polygon{Point[] points}], with [Point] registered: the
    canonical text is not [<md5 of Point> points]; the computation stops
    with the [TypeError] of [get_dependencies]. *)
Theorem polygon_text_raises :
  compute_md5_text 8 (bundle_of (Msg Polygon) ["pkg/Point"]) Polygon reg
  = (reg, Raise three_arguments)
  /\ is_builtin (base_msg_type "Point[]") = false
  /\ get_registered reg (base_msg_type "Point[]") (Some "pkg")
     = Some (Msg Point).
Proof. repeat split. Qed.

(** C5. Resolving the dependencies of [Polygon{Point[] points}] in
    package [pkg], with [Point] registered, gives no bundle, hence no
    [deps] and no [uniquedeps]: it raises [TypeError]. *)
Theorem polygon_dependencies_raise :
  get_dependencies 8 (Msg Polygon) "pkg" true reg
  = (reg, Raise three_arguments)
  /\ get_dependencies 8 (Msg Polygon) "pkg" false reg
     = (reg, Raise three_arguments).
Proof. split; reflexivity. Qed.

Lemma compute_md5_service_witness :
  compute_md5 8 (bundle_of (Srv Ask) []) reg
  = (reg, Ok (hexdigest (update (update md5_new "") "int32 b")))
  /\ compute_md5 8 (bundle_of (Srv Ksa) []) reg
     = compute_md5 8 (bundle_of (Srv Ask) []) reg.
Proof.
  destruct (@compute_md5_service msgs 8 (bundle_of (Srv Ask) [])
              (bundle_of (Srv Ksa) []) Ask Ksa reg "" "int32 b"
              eq_refl eq_refl eq_refl eq_refl eq_refl eq_refl
              eq_refl eq_refl) as (E & _ & _ & _ & _ & C).
  split; [exact E | exact (C eq_refl)].
Defined.

(** A service with an empty request and the service with the two
    swapped: the canonical texts are distinct and swapped, and the
    fingerprints are the same. *)
Lemma swapped_services_same_fingerprint :
  request Ksa = response Ask /\ response Ksa = request Ask
  /\ compute_md5_text 8 (bundle_of (Srv Ask) []) (request Ask) reg
     = (reg, Ok "")
  /\ compute_md5_text 8 (bundle_of (Srv Ask) []) (response Ask) reg
     = (reg, Ok "int32 b")
  /\ "" <> "int32 b"
  /\ compute_md5 8 (bundle_of (Srv Ask) []) reg
     = (reg, Ok "976c440660ac67ad67b35c9dce4f2065")
  /\ compute_md5 8 (bundle_of (Srv Ksa) []) reg
     = (reg, Ok "976c440660ac67ad67b35c9dce4f2065").
Proof.
  repeat split; try discriminate; vm_compute; reflexivity.
Qed.

Lemma fingerprint_deterministic_witness :
  fingerprint Current 8 (bundle_of (Msg Point) []) reg
  = (reg, Ok (hexdigest (update md5_new
                           ("float64 x" ++ newline ++ "float64 y"))))
  /\ reg = reg.
Proof.
  exact (@fingerprint_deterministic msgs Current 8
           (bundle_of (Msg Point) []) reg reg _ eq_refl).
Defined.

Lemma compute_md5_v1_digest_witness :
  compute_md5_v1 (bundle_of (Msg Polygon) ["pkg/Point"]) reg
  = (reg,
     Ok (hexdigest
           (fold_left update [text Point] (update md5_new (text Polygon)))))
  /\ hexdigest
       (fold_left update [text Point] (update md5_new (text Polygon)))
     = MD5.hexdigest (text Polygon ++ join [text Point]).
Proof.
  apply (@compute_md5_v1_digest msgs (bundle_of (Msg Polygon) ["pkg/Point"])
           reg (text Polygon) [text Point]).
  - reflexivity.
  - repeat constructor. exists (Msg Point). split; reflexivity.
Defined.

Example polygon_md5_v1 :
  compute_md5_v1 (bundle_of (Msg Polygon) ["pkg/Point"]) reg
  = (reg, Ok "53ce7ad2f299f1cba547865985c35404").
Proof. vm_compute. reflexivity. Qed.

Lemma compute_full_text_document_witness :
  compute_full_text (bundle_of (Msg Polygon) ["pkg/Point"]) reg
  = (reg,
     Ok (drop_last
           (text Polygon ++ newline ++
            join [ (replicate 80 "="%char ++ newline) ++
                   "MSG: " ++ "pkg/Point" ++ newline ++
                   text Point ++ newline ]))).
Proof.
  apply (@compute_full_text_document msgs
           (bundle_of (Msg Polygon) ["pkg/Point"]) reg (text Polygon)
           [text Point]).
  - reflexivity.
  - repeat constructor. exists (Msg Point). split; reflexivity.
Defined.

Lemma compute_full_text_point_witness :
  compute_full_text (bundle_of (Msg IntA) ["pkg/Point"]) reg
  = (reg,
     Ok ("int32 a" ++ newline ++ newline ++
         replicate 80 "="%char ++ newline ++
         "MSG: pkg/Point" ++ newline ++
         "float64 x" ++ newline ++ "float64 y" ++ newline)).
Proof.
  apply (@compute_full_text_point msgs (bundle_of (Msg IntA) ["pkg/Point"])
           reg).
  - reflexivity.
  - reflexivity.
  - exists (Msg Point). split; reflexivity.
Defined.

(** The root text [int32 a] and the dependency [pkg/Point]: the full
    text is not the root text followed at once by the line of [=], the
    marker and the text of [Point] less its last line feed. *)
Lemma full_text_point_not_as_stated :
  spec_text (spec (bundle_of (Msg IntA) ["pkg/Point"]))
  = Ok ("int32 a" ++ newline)
  /\ uniquedeps (bundle_of (Msg IntA) ["pkg/Point"]) = ["pkg/Point"]
  /\ has_text reg "pkg/Point"
       ("float64 x" ++ newline ++ "float64 y" ++ newline)
  /\ snd (compute_full_text (bundle_of (Msg IntA) ["pkg/Point"]) reg)
     <> Ok (drop_last
              (("int32 a" ++ newline) ++
               replicate 80 "="%char ++ newline ++
               ("MSG: pkg/Point" ++ newline) ++
               ("float64 x" ++ newline ++ "float64 y" ++ newline))).
Proof.
  repeat split.
  - exists (Msg Point). split; reflexivity.
  - vm_compute. discriminate.
Qed.

Lemma neither_message_nor_service_witness :
  get_dependencies 8 (Other Element) "pkg" true reg = (reg, Raise not_a_spec)
  /\ compute_md5 8 (bundle_of (Other Element) []) reg
     = (reg, Raise (Exception "[<Element>] is not a message or service"))
  /\ compute_md5_v1 (bundle_of (Other Element) []) reg
     = (reg, Ok (MD5.hexdigest ("x" ++ join []))).
Proof.
  destruct (@neither_message_nor_service msgs 8
              (bundle_of (Other Element) []) Element "pkg" true reg eq_refl)
    as (G & _ & C & _ & _ & _ & _ & _ & L).
  split; [exact G | split; [exact (C "<Element>" eq_refl eq_refl) |]].
  apply L; [reflexivity | constructor].
Defined.

(** The tuple [(1, 2)] in place of a schema: the message cannot be
    formatted. *)
Example pair_is_not_formatted :
  compute_md5 8 (bundle_of (Other Pair) []) reg
  = (reg,
     Raise (TypeError
              "not all arguments converted during string formatting")).
Proof. reflexivity. Qed.

(** An object with a [text], which is neither a message nor a service:
    the legacy scheme gives it a fingerprint. *)
Lemma legacy_fingerprint_of_other_value :
  spec (bundle_of (Other Element) []) = Other Element
  /\ compute_md5_v1 (bundle_of (Other Element) []) reg
     = (reg, Ok "9dd4e461268c8034f5c8564e155c67a6").
Proof. split; [reflexivity | vm_compute; reflexivity]. Qed.

End OnSample.

(* ================================================================== *)
(** ** Further properties *)
(* ================================================================== *)

(** *** The loop that builds [uniquedeps] *)

Lemma filter_all {A : Type} (p : A -> bool) l :
  (forall x, In x l -> p x = true) -> filter p l = l.
Proof.
  induction l as [|x l IH]; simpl; intros P; [reflexivity|].
  rewrite (P x) by now left. f_equal. apply IH. intros y I. apply P. now right.
Qed.

Lemma first_occurrences_NoDup_id l : NoDup l -> first_occurrences l = l.
Proof.
  induction 1 as [|x l N _ IH]; simpl; [reflexivity|].
  rewrite IH. f_equal. apply filter_all. intros y I.
  destruct (String.eqb_spec y x) as [->|D]; [contradiction | reflexivity].
Qed.

(** X1. The loop of [get_dependencies] over [deps] keeps each type once,
    where it first occurs: the list it builds has no type twice, holds
    the types of [deps] and no other, and is [deps] itself exactly when
    [deps] has no type twice. *)
Theorem unique_keeps_first_occurrences (deps : list string) :
  unique deps = first_occurrences deps
  /\ NoDup (unique deps)
  /\ (forall d, In d (unique deps) <-> In d deps)
  /\ (unique deps = deps <-> NoDup deps).
Proof.
  destruct (unique_NoDup deps) as [N I].
  split; [apply unique_first_occurrences|].
  split; [exact N|]. split; [exact I|]. split.
  - intros E. now rewrite <- E.
  - intros D. rewrite unique_first_occurrences.
    now apply first_occurrences_NoDup_id.
Qed.

(** X2. When [deps] is one list followed by another (those of a request,
    then those of a response), the unique list starts with the unique
    list of the first and goes on with the types of the second that the
    first does not have, each where it first occurs; running the loop on
    its own result changes nothing. *)
Theorem unique_app (deps1 deps2 : list string) :
  unique (deps1 ++ deps2)
  = (unique deps1 ++
     first_occurrences (filter (fun d => negb (mem d deps1)) deps2))%list
  /\ unique (unique deps1) = unique deps1.
Proof.
  split.
  - unfold unique at 1. rewrite fold_left_app. fold (unique deps1).
    rewrite unique_loop. do 2 f_equal.
    apply filter_ext. intros d. f_equal.
    destruct (unique_NoDup deps1) as [_ I].
    destruct (mem d deps1) eqn:M.
    + apply mem_In, I, mem_In. exact M.
    + destruct (mem d (unique deps1)) eqn:M'; [|reflexivity].
      apply mem_In in M'. apply I in M'. apply mem_In in M'. congruence.
  - rewrite (unique_first_occurrences (unique deps1)).
    apply first_occurrences_NoDup_id, unique_NoDup.
Qed.

(** *** Canonical text and current fingerprint *)

Lemma zip_nil_r {A B : Type} (a : list A) : zip a (@nil B) = [].
Proof. now destruct a. Qed.

Section MoreCanonical.
Context `{Msgs}.

(** Fields of builtin types ahead of the others only add their lines. *)
Lemma md5_text_fields_prefix compute_md5 fuel package compute_files pre :
  forallb (fun f => is_builtin (base_msg_type (fst f))) pre = true ->
  forall rest buff reg,
    md5_text_fields compute_md5 fuel package compute_files
                    (pre ++ rest) buff reg
    = md5_text_fields compute_md5 fuel package compute_files rest
        (buff ++ join (map (fun f => field_line (fst f) (snd f)) pre)) reg.
Proof.
  induction pre as [|[t n] pre IH]; intros B rest buff reg.
  - cbn [app map join fold_right]. now rewrite append_nil_r.
  - cbn [forallb fst] in B. apply andb_prop in B. destruct B as [Bt Bp].
    cbn [app md5_text_fields]. rewrite Bt, (IH Bp).
    cbn [map join fold_right fst snd]. now rewrite append_assoc.
Qed.

(** X3. When the first field whose base type is not builtin names a type
    that is not registered, [compute_md5_text] raises [KeyError] with
    that type and leaves the registry alone; when the type is
    registered, the text is not produced either: the registry is
    initialised and the error of [get_dependencies] comes out,
    [TypeError] for a registered schema. Constants and the fields ahead
    play no part. *)
Theorem compute_md5_text_first_other
    (fuel : nat) (d : bundle) (m : MsgSpec) (reg : registry)
    (pre post : list (string * string)) (t n : string) :
  zip (types m) (names m) = (pre ++ (t, n) :: post)%list ->
  forallb (fun f => is_builtin (base_msg_type (fst f))) pre = true ->
  is_builtin (base_msg_type t) = false ->
  compute_md5_text fuel d m reg
  = match get_registered reg (base_msg_type t) (Some (package d)) with
    | None => (reg, Raise (KeyError (base_msg_type t)))
    | Some (Other _) => (msgs_init reg, Raise not_a_spec)
    | Some _ => (msgs_init reg, Raise three_arguments)
    end.
Proof.
  intros Z P T. unfold compute_md5_text, compute_md5_text_with.
  unfold bind at 1. rewrite Z, (md5_text_fields_prefix _ _ _ _ _ P).
  cbn [md5_text_fields]. rewrite T.
  destruct (package_resource_name (base_msg_type t)) as [sub_pkg r].
  unfold bind at 1, registered.
  destruct (get_registered reg (base_msg_type t) (Some (package d)))
    as [sub_spec|]; [|reflexivity].
  unfold bind at 1. rewrite get_dependencies_raises.
  now destruct sub_spec.
Qed.

(** The current fingerprint of a schema with builtin fields. *)
Lemma compute_md5_canonical fuel d reg :
  fingerprintable (spec d) = true ->
  compute_md5 fuel d reg
  = (reg, Ok (MD5.hexdigest (canonical_text (spec d)))).
Proof.
  destruct (spec d) as [m|s|o] eqn:S; cbn [fingerprintable canonical_text];
    intros F.
  - rewrite (compute_md5_message (m := m) (reg1 := reg)
               (t := strip (canonical_lines m)) fuel d reg S).
    + reflexivity.
    + now apply compute_md5_text_with_builtin.
  - apply andb_prop in F. destruct F as [Fq Fs].
    rewrite (compute_md5_request_response (s := s) (reg1 := reg) (reg2 := reg)
               (a := strip (canonical_lines (request s)))
               (b := strip (canonical_lines (response s))) fuel d reg S).
    + reflexivity.
    + now apply compute_md5_text_with_builtin.
    + now apply compute_md5_text_with_builtin.
  - discriminate.
Qed.

(** [compute_md5] returns for the fingerprintable values and raises for
    the others. *)
Lemma compute_md5_cases (fuel : nat) (d : bundle) (reg : registry) :
  (fingerprintable (spec d) = true
   /\ compute_md5 fuel d reg
      = (reg, Ok (MD5.hexdigest (canonical_text (spec d)))))
  \/ (fingerprintable (spec d) = false
      /\ exists reg' e, compute_md5 fuel d reg = (reg', Raise e)).
Proof.
  destruct (fingerprintable (spec d)) eqn:F.
  - left. split; [reflexivity | now apply compute_md5_canonical].
  - right. split; [reflexivity|].
    destruct (compute_md5 fuel d reg) as [reg' [s|e]] eqn:E; [|eauto].
    exfalso. rewrite compute_md5_unfold in E.
    unfold _compute_hash, _compute_hash_with, bind in E.
    destruct (spec d) as [m|v|o]; cbn [fingerprintable] in F.
    + destruct (compute_md5_text fuel d m reg) as [r [t|x]] eqn:T;
        [|discriminate].
      apply compute_md5_text_ok in T. destruct T as [B _]. congruence.
    + destruct (compute_md5_text fuel d (request v) reg) as [r [a|x]] eqn:A;
        [|discriminate].
      apply compute_md5_text_ok in A. destruct A as (Ba & -> & _).
      destruct (compute_md5_text fuel d (response v) reg) as [r [b|x]] eqn:B;
        [|discriminate].
      apply compute_md5_text_ok in B. destruct B as (Bb & _).
      rewrite Ba, Bb in F. discriminate.
    + discriminate.
Qed.

(** X4. [compute_md5] returns a fingerprint exactly for the messages and
    services whose fields all have builtin base types, and raises for
    every other value; the fingerprint is the digest of the canonical
    text, and the registry is left as it was. *)
Theorem compute_md5_returns_or_raises
    (fuel : nat) (d : bundle) (reg : registry) :
  (fingerprintable (spec d) = true
   /\ compute_md5 fuel d reg
      = (reg, Ok (MD5.hexdigest (canonical_text (spec d)))))
  \/ (fingerprintable (spec d) = false
      /\ exists reg' e, compute_md5 fuel d reg = (reg', Raise e)).
Proof. apply compute_md5_cases. Qed.

(** X5. The current fingerprint of a message with builtin fields is read
    off its types, names and constants alone: two such messages that
    differ only in their raw text get the same fingerprint, whatever the
    bundles they sit in, the registries and the recursion depth left. *)
Theorem compute_md5_ignores_raw_text
    (fuel fuel' : nat) (d d' : bundle) (m m' : MsgSpec)
    (reg reg' : registry) :
  spec d = Msg m -> spec d' = Msg m' ->
  types m' = types m -> names m' = names m -> constants m' = constants m ->
  all_builtin m = true ->
  exists s,
    compute_md5 fuel d reg = (reg, Ok s)
    /\ compute_md5 fuel' d' reg' = (reg', Ok s).
Proof.
  intros S S' T N C B.
  assert (B' : all_builtin m' = true).
  { unfold all_builtin. rewrite T, N. exact B. }
  exists (MD5.hexdigest (strip (canonical_lines m))). split.
  - rewrite compute_md5_canonical; rewrite S; [reflexivity | exact B].
  - rewrite compute_md5_canonical; rewrite S'; [|exact B'].
    unfold canonical_text, canonical_lines. now rewrite T, N, C.
Qed.

(** X6. A message with no constant and no field has the digest of the
    empty string for fingerprint, whatever its raw text, the bundle and
    the registry. *)
Theorem compute_md5_empty_message
    (fuel : nat) (d : bundle) (m : MsgSpec) (reg : registry) :
  spec d = Msg m -> constants m = [] -> names m = [] ->
  compute_md5 fuel d reg = (reg, Ok "d41d8cd98f00b204e9800998ecf8427e").
Proof.
  intros S C N.
  rewrite compute_md5_canonical; rewrite S.
  - unfold canonical_text, canonical_lines. rewrite C, N, zip_nil_r.
    cbn [map join fold_right String.append]. now rewrite <- md5_empty.
  - unfold fingerprintable, all_builtin. now rewrite N, zip_nil_r.
Qed.

(** X7. A service whose response has no constant and no field has the
    fingerprint of its request taken as a message: the second update of
    the digest adds nothing. *)
Theorem compute_md5_empty_response
    (fuel : nat) (d d' : bundle) (s : SrvSpec) (reg : registry) :
  spec d = Srv s -> spec d' = Msg (request s) ->
  all_builtin (request s) = true ->
  constants (response s) = [] -> names (response s) = [] ->
  compute_md5 fuel d reg = compute_md5 fuel d' reg
  /\ compute_md5 fuel d reg
     = (reg, Ok (MD5.hexdigest (strip (canonical_lines (request s))))).
Proof.
  intros S S' B C N.
  assert (E : compute_md5 fuel d reg
              = (reg, Ok (MD5.hexdigest
                            (strip (canonical_lines (request s)))))).
  { rewrite compute_md5_canonical; rewrite S.
    - unfold canonical_text. unfold canonical_lines at 2.
      rewrite C, N, zip_nil_r.
      cbn [map join fold_right String.append].
      change (strip "") with "". now rewrite append_nil_r.
    - unfold fingerprintable. rewrite B. unfold all_builtin.
      now rewrite N, zip_nil_r. }
  split; [|exact E].
  rewrite E. rewrite compute_md5_canonical; rewrite S'; [reflexivity | exact B].
Qed.

End MoreCanonical.

(** *** Legacy fingerprint and full text *)

Lemma drop_last_app a x :
  x <> "" -> drop_last (a ++ x) = a ++ drop_last x.
Proof.
  intros X. induction a as [|c a IH]; [reflexivity|].
  change (String c a ++ x) with (String c (a ++ x)).
  cbn [drop_last]. rewrite IH.
  destruct (a ++ x) eqn:E; [|reflexivity].
  destruct a; [simpl in E; congruence | discriminate].
Qed.

Section MoreFullText.
Context `{Msgs}.

(** One turn of the loop of [_compute_hash_v1]. *)
Lemma hash_v1_dependencies_step x l hash reg :
  hash_v1_dependencies (x :: l) hash reg
  = match get_registered reg x None with
    | None => (reg, Raise (KeyError x))
    | Some s =>
        match spec_text s with
        | Ok t => hash_v1_dependencies l (update hash t) reg
        | Raise e => (reg, Raise e)
        end
    end.
Proof.
  cbn [hash_v1_dependencies]. unfold bind at 1, registered.
  destruct (get_registered reg x None) as [s|]; [|reflexivity].
  unfold bind at 1, lift. now destruct (spec_text s).
Qed.

(** One turn of the loop of [compute_full_text]. *)
Lemma full_text_dependencies_step x l buff reg :
  full_text_dependencies (x :: l) buff reg
  = match get_registered reg x None with
    | None => (reg, Raise (KeyError x))
    | Some s =>
        match spec_text s with
        | Ok t => full_text_dependencies l (buff ++ embedded x t) reg
        | Raise e => (reg, Raise e)
        end
    end.
Proof.
  cbn [full_text_dependencies]. unfold bind at 1, registered.
  destruct (get_registered reg x None) as [s|]; [|reflexivity].
  unfold bind at 1, lift. destruct (spec_text s) as [t|e]; [|reflexivity].
  unfold embedded. now rewrite !append_assoc.
Qed.

(** The two loops over [uniquedeps] stop at the same dependency with the
    same exception, or both run to the end. *)
Lemma dependencies_loops_agree l :
  forall hash buff reg,
    (exists hash' tail,
       hash_v1_dependencies l hash reg = (reg, Ok hash')
       /\ full_text_dependencies l buff reg = (reg, Ok (buff ++ tail)))
    \/ (exists e,
          hash_v1_dependencies l hash reg = (reg, Raise e)
          /\ full_text_dependencies l buff reg = (reg, Raise e)).
Proof.
  induction l as [|x l IH]; intros hash buff reg.
  - left. exists hash, "". cbn. unfold ret. now rewrite append_nil_r.
  - rewrite hash_v1_dependencies_step, full_text_dependencies_step.
    destruct (get_registered reg x None) as [s|]; [|right; eauto].
    destruct (spec_text s) as [t|e]; [|right; eauto].
    destruct (IH (update hash t) (buff ++ embedded x t) reg)
      as [(hash' & tail & Eh & Eb)|(e & Eh & Eb)].
    + left. exists hash', (embedded x t ++ tail).
      split; [exact Eh|]. rewrite Eb. now rewrite append_assoc.
    + right. exists e. now split.
Qed.

Lemma full_text_dependencies_registry l buff reg :
  fst (full_text_dependencies l buff reg) = reg.
Proof.
  destruct (dependencies_loops_agree l md5_new buff reg)
    as [(h & t & _ & E)|(e & _ & E)]; now rewrite E.
Qed.

Lemma compute_full_text_registry d reg : fst (compute_full_text d reg) = reg.
Proof.
  unfold compute_full_text, bind at 1, lift.
  destruct (spec_text (spec d)) as [t|e]; [|reflexivity].
  unfold bind.
  pose proof (full_text_dependencies_registry (uniquedeps d)
                (("" ++ t) ++ newline) reg) as R.
  destruct (full_text_dependencies (uniquedeps d) (("" ++ t) ++ newline) reg)
    as [r [b|e]]; exact R.
Qed.

(** X8. The legacy fingerprint and the full text read the registry and
    never change it, whether they return or raise: neither initialises
    it nor registers a type. *)
Theorem legacy_and_full_text_keep_registry (d : bundle) (reg : registry) :
  fst (compute_md5_v1 d reg) = reg /\ fst (compute_full_text d reg) = reg.
Proof.
  split; [apply compute_md5_v1_registry | apply compute_full_text_registry].
Qed.

(** X9. The legacy fingerprint and the full text of a bundle fail
    together and with the same exception ([AttributeError] or
    [TypeError] for a text that is missing or not a string, [KeyError]
    for a dependency that is not registered), and return together. *)
Theorem legacy_and_full_text_agree (d : bundle) (reg : registry) :
  (forall e,
     compute_md5_v1 d reg = (reg, Raise e)
     <-> compute_full_text d reg = (reg, Raise e))
  /\ ((exists s, compute_md5_v1 d reg = (reg, Ok s))
      <-> (exists t, compute_full_text d reg = (reg, Ok t))).
Proof.
  unfold compute_md5_v1, _compute_hash_v1, compute_full_text.
  unfold bind at 1 3 5 7, lift.
  destruct (spec_text (spec d)) as [t|e0].
  - destruct (dependencies_loops_agree (uniquedeps d) (update md5_new t)
                (("" ++ t) ++ newline) reg)
      as [(h & tail & Eh & Eb)|(e & Eh & Eb)];
      unfold bind; rewrite Eh, Eb; unfold ret.
    + split.
      * intros e. split; discriminate.
      * split; eauto.
    + split.
      * intros e'. split; intros E; inversion E; reflexivity.
      * split; intros [x E]; discriminate.
  - split.
    + intros e. tauto.
    + split; intros [x E]; discriminate.
Qed.

(** X10. When every unique dependency ahead of [x] is registered and [x]
    is not, the legacy fingerprint and the full text both raise
    [KeyError] with [x], whatever comes after it. *)
Theorem unregistered_dependency
    (d : bundle) (reg : registry) (root : string)
    (pre post : list string) (texts : list string) (x : string) :
  spec_text (spec d) = Ok root ->
  uniquedeps d = (pre ++ x :: post)%list ->
  Forall2 (has_text reg) pre texts ->
  get_registered reg x None = None ->
  compute_md5_v1 d reg = (reg, Raise (KeyError x))
  /\ compute_full_text d reg = (reg, Raise (KeyError x)).
Proof.
  intros R U P X.
  assert (Hh : forall hash,
            hash_v1_dependencies (pre ++ x :: post) hash reg
            = (reg, Raise (KeyError x))).
  { clear U. induction P as [|p t pre texts (s & G & T) _ IH]; intros hash;
      cbn [app]; rewrite hash_v1_dependencies_step.
    - now rewrite X.
    - rewrite G, T. apply IH. }
  assert (Hb : forall buff,
            full_text_dependencies (pre ++ x :: post) buff reg
            = (reg, Raise (KeyError x))).
  { clear U Hh.
    induction P as [|p t pre texts (s & G & T) _ IH]; intros buff;
      cbn [app]; rewrite full_text_dependencies_step.
    - now rewrite X.
    - rewrite G, T. apply IH. }
  split.
  - unfold compute_md5_v1, _compute_hash_v1, bind, lift.
    now rewrite R, U, Hh.
  - unfold compute_full_text, bind, lift. now rewrite R, U, Hb.
Qed.

(** X11. The full text, when there is one, starts with the raw text of
    the root schema; for a bundle with no dependency it is that text and
    nothing more. *)
Theorem compute_full_text_starts_with_root
    (d : bundle) (reg reg' : registry) (root full : string) :
  spec_text (spec d) = Ok root ->
  compute_full_text d reg = (reg', Ok full) ->
  (exists rest, full = root ++ rest)
  /\ (uniquedeps d = [] -> full = root).
Proof.
  intros R. unfold compute_full_text, bind at 1, lift. rewrite R.
  unfold bind.
  destruct (dependencies_loops_agree (uniquedeps d) md5_new
              (("" ++ root) ++ newline) reg)
    as [(h & tail & _ & Eb)|(e & _ & Eb)]; rewrite Eb; [|discriminate].
  unfold ret. intros E. inversion E. subst reg' full. clear E. split.
  - exists (drop_last (newline ++ tail)). cbn [String.append].
    rewrite (append_assoc root newline tail).
    apply drop_last_app. discriminate.
  - intros U. rewrite U in Eb. cbn in Eb. inversion Eb as [Et].
    apply drop_last_newline.
Qed.

End MoreFullText.

(** *** The shape of a fingerprint *)

Lemma le_bytes_length n x : List.length (MD5.le_bytes n x) = n.
Proof.
  revert x. induction n as [|n IH]; intros x; simpl; [reflexivity|].
  now rewrite IH.
Qed.

Lemma digest_bytes_length msg : List.length (MD5.digest_bytes msg) = 16.
Proof.
  unfold MD5.digest_bytes. cbv zeta.
  now rewrite !length_app, !le_bytes_length.
Qed.

Lemma hex_digit_lower x : is_lower_hex (MD5.hex_digit x) = true.
Proof.
  unfold MD5.hex_digit. generalize (Z.to_nat x) as n. intros n.
  do 17 (destruct n as [|n]; [reflexivity|]). reflexivity.
Qed.

Lemma hex_of_bytes_shape bs :
  String.length (MD5.hex_of_bytes bs) = 2 * List.length bs
  /\ forallb is_lower_hex (list_ascii_of_string (MD5.hex_of_bytes bs)) = true.
Proof.
  induction bs as [|b bs [L F]]; [split; reflexivity|].
  cbn [MD5.hex_of_bytes String.length list_ascii_of_string forallb List.length].
  rewrite L, F, !hex_digit_lower. split; [lia | reflexivity].
Qed.

(** [hexdigest] gives thirty-two characters, digits and [a] to [f]. *)
Lemma hexdigest_shape s :
  String.length (MD5.hexdigest s) = 32
  /\ forallb is_lower_hex (list_ascii_of_string (MD5.hexdigest s)) = true.
Proof.
  unfold MD5.hexdigest.
  destruct (hex_of_bytes_shape (MD5.digest_bytes (MD5.bytes_of_string s)))
    as [L F].
  rewrite digest_bytes_length in L. split; [exact L | exact F].
Qed.

Section Shape.
Context `{Msgs}.

(** X12. A fingerprint, under the current or the legacy scheme, is a
    string of thirty-two characters, each a digit or a letter from [a]
    to [f]. *)
Theorem fingerprint_is_hex
    (sch : scheme) (fuel : nat) (d : bundle) (reg reg' : registry)
    (s : string) :
  fingerprint sch fuel d reg = (reg', Ok s) ->
  String.length s = 32
  /\ forallb is_lower_hex (list_ascii_of_string s) = true.
Proof.
  intros E.
  assert (D : exists h, s = MD5.hexdigest h).
  { destruct sch; cbn [fingerprint] in E.
    - destruct (compute_md5_cases fuel d reg) as [[_ C]|[_ (r & e & C)]];
        rewrite C in E; [|discriminate].
      inversion E. eauto.
    - unfold compute_md5_v1, _compute_hash_v1, bind at 1, lift in E.
      destruct (spec_text (spec d)) as [t|e]; [|discriminate].
      unfold bind in E.
      destruct (hash_v1_dependencies (uniquedeps d) (update md5_new t) reg)
        as [r [h|e]]; [|discriminate].
      unfold ret in E. inversion E. unfold hexdigest. eauto. }
  destruct D as [h ->]. apply hexdigest_shape.
Qed.

End Shape.

(* ================================================================== *)
(** ** The further properties on the sample registry *)
(* ================================================================== *)

Module MoreOnSample.
Import Sample.

Lemma compute_md5_text_first_other_witness :
  compute_md5_text 8 (bundle_of (Msg Polygon) ["pkg/Point"]) Polygon reg
  = (reg, Raise three_arguments).
Proof.
  exact (@compute_md5_text_first_other msgs 8
           (bundle_of (Msg Polygon) ["pkg/Point"]) Polygon reg [] []
           "Point[]" "points" eq_refl eq_refl eq_refl).
Defined.

Lemma compute_md5_ignores_raw_text_witness :
  exists s,
    compute_md5 8 (bundle_of (Msg Point) []) reg = (reg, Ok s)
    /\ compute_md5 3 (bundle_of (Msg CommentedPoint) ["pkg/Point"]) []
       = ([], Ok s).
Proof.
  exact (@compute_md5_ignores_raw_text msgs 8 3 (bundle_of (Msg Point) [])
           (bundle_of (Msg CommentedPoint) ["pkg/Point"]) Point
           CommentedPoint reg [] eq_refl eq_refl eq_refl eq_refl eq_refl
           eq_refl).
Defined.

Lemma compute_md5_empty_message_witness :
  compute_md5 8 (bundle_of (Msg Empty) []) reg
  = (reg, Ok "d41d8cd98f00b204e9800998ecf8427e").
Proof.
  exact (@compute_md5_empty_message msgs 8 (bundle_of (Msg Empty) []) Empty
           reg eq_refl eq_refl eq_refl).
Defined.

Lemma compute_md5_empty_response_witness :
  compute_md5 8 (bundle_of (Srv Ksa) []) reg
  = compute_md5 8 (bundle_of (Msg IntB) []) reg
  /\ compute_md5 8 (bundle_of (Srv Ksa) []) reg
     = (reg, Ok (MD5.hexdigest (strip (canonical_lines (request Ksa))))).
Proof.
  exact (@compute_md5_empty_response msgs 8 (bundle_of (Srv Ksa) [])
           (bundle_of (Msg IntB) []) Ksa reg eq_refl eq_refl eq_refl
           eq_refl eq_refl).
Defined.

Lemma unregistered_dependency_witness :
  compute_md5_v1
    (bundle_of (Msg Polygon) ["pkg/Point"; "pkg/Missing"; "pkg/Point"]) reg
  = (reg, Raise (KeyError "pkg/Missing"))
  /\ compute_full_text
       (bundle_of (Msg Polygon) ["pkg/Point"; "pkg/Missing"; "pkg/Point"])
       reg
     = (reg, Raise (KeyError "pkg/Missing")).
Proof.
  apply (@unregistered_dependency msgs
           (bundle_of (Msg Polygon) ["pkg/Point"; "pkg/Missing"; "pkg/Point"])
           reg (text Polygon) ["pkg/Point"] ["pkg/Point"] [text Point]
           "pkg/Missing").
  - reflexivity.
  - reflexivity.
  - repeat constructor. exists (Msg Point). split; reflexivity.
  - reflexivity.
Defined.

Lemma compute_full_text_starts_with_root_witness :
  (exists rest,
     "int32 a" ++ newline ++ newline ++
     replicate 80 "="%char ++ newline ++
     "MSG: pkg/Point" ++ newline ++
     "float64 x" ++ newline ++ "float64 y" ++ newline
     = text IntA ++ rest)
  /\ (uniquedeps (bundle_of (Msg IntA) ["pkg/Point"]) = [] ->
      "int32 a" ++ newline ++ newline ++
      replicate 80 "="%char ++ newline ++
      "MSG: pkg/Point" ++ newline ++
      "float64 x" ++ newline ++ "float64 y" ++ newline
      = text IntA).
Proof.
  apply (@compute_full_text_starts_with_root msgs
           (bundle_of (Msg IntA) ["pkg/Point"]) reg reg).
  - reflexivity.
  - reflexivity.
Defined.

Lemma fingerprint_is_hex_witness :
  String.length "53ce7ad2f299f1cba547865985c35404" = 32
  /\ forallb is_lower_hex
       (list_ascii_of_string "53ce7ad2f299f1cba547865985c35404") = true.
Proof.
  apply (@fingerprint_is_hex msgs Legacy 0
           (bundle_of (Msg Polygon) ["pkg/Point"]) reg reg).
  vm_compute. reflexivity.
Defined.

End MoreOnSample.
